(** * sshm: remote browser, transfer engine, wizard and history store

    A shallow embedding of the interactive file-transfer core of sshm
    (internal/ui remote browser and quick-transfer wizard,
    internal/transfer session and engine, internal/history store), with
    the properties of its specification stated over the embedding.

    Go strings are byte strings: [string] here, one [ascii] per byte, and
    [length] is Go's [len].  Go [int] values that the code only compares,
    increments and decrements within list bounds are in [Z]. *)

From Stdlib Require Import ZArith Lia Ascii String List Bool.
From Stdlib Require Import Sorting.Sorted Sorting.Permutation.
From stdpp Require Import base list sorting strings gmap.

Local Open Scope string_scope.
Local Open Scope Z_scope.

(** ** Go runtime values *)

(** The [error] interface: [None] is [nil], [Some s] an error whose
    [Error()] text is [s]. *)
Abbreviation error := (option string).

(** Indexing a slice with an [int]: outside [0 <= i < len] the Go runtime
    panics, which is [None] here. *)
Definition index {A} (l : list A) (i : Z) : option A :=
  if bool_decide (0 <= i < Z.of_nat (List.length l))
  then l !! Z.to_nat i else None.

Definition len {A} (l : list A) : Z := Z.of_nat (List.length l).
Definition slen (s : string) : Z := Z.of_nat (String.length s).

(** The double quote character. *)
Definition dquote : ascii := "034"%char.

(** ** Package strings *)

Module strings.

(** [strings.HasPrefix(s, prefix)]. *)
Definition HasPrefix (s pre : string) : bool := String.prefix pre s.

(** [strings.Contains(s, substr)]: some suffix of [s] starts with
    [substr]. *)
Fixpoint Contains (s substr : string) : bool :=
  String.prefix substr s ||
  match s with
  | EmptyString => false
  | String _ s' => Contains s' substr
  end.

(** The scan of [strings.ReplaceAll(s, old, new)] for a non-empty [old]:
    left to right, non-overlapping; [skip] counts the bytes of a match
    still to be dropped. *)
Fixpoint replace_from (skip : nat) (old new s : string) : string :=
  match s with
  | EmptyString => EmptyString
  | String c s' =>
      match skip with
      | S k => replace_from k old new s'
      | O =>
          if String.prefix old s
          then new ++ replace_from (Nat.pred (String.length old)) old new s'
          else String c (replace_from O old new s')
      end
  end.

(** With an empty [old], Go inserts [new] before every UTF-8 sequence
    and at the end of the string; on ASCII text that is before every
    byte.  No caller here passes an empty [old]. *)
Fixpoint intersperse_all (new s : string) : string :=
  match s with
  | EmptyString => new
  | String c s' => new ++ String c (intersperse_all new s')
  end.

Definition ReplaceAll (s old new : string) : string :=
  match old with
  | EmptyString => intersperse_all new s
  | _ => replace_from O old new s
  end.

(** [strings.Split(s, sep)] for a one-byte separator: the pieces between
    the separators, [[""]] for the empty string. *)
Fixpoint Split (s : string) (sep : ascii) : list string :=
  match s with
  | EmptyString => [EmptyString]
  | String c s' =>
      if Ascii.eqb c sep then EmptyString :: Split s' sep
      else match Split s' sep with
           | h :: t => String c h :: t
           | [] => [String c EmptyString]
           end
  end.

(** [strings.Join(elems, sep)]. *)
Definition Join (elems : list string) (sep : string) : string :=
  String.concat sep elems.

(** [strings.Replace(s, old, new, 1)]: the first occurrence only. *)
Fixpoint ReplaceFirst (s old new : string) : string :=
  if String.prefix old s
  then new ++ String.substring (String.length old) (String.length s) s
  else match s with
       | EmptyString => EmptyString
       | String c s' => String c (ReplaceFirst s' old new)
       end.

End strings.

(** The functions of package strings and fmt whose result depends on the
    Unicode tables or on the scanner of fmt: the embedding is stated for
    every implementation of them, and [ascii_text] below is the one that
    agrees with Go on ASCII text. *)
Class Text := {
  ToLower : string -> string;      (* strings.ToLower *)
  TrimSpace : string -> string;    (* strings.TrimSpace *)
  Fields : string -> list string;  (* strings.Fields *)
  Sscanf_d : string -> Z -> Z;     (* fmt.Sscanf(s, "%d", &x), x before *)
  Sprintf_q : string -> string;    (* fmt.Sprintf("%q", s) *)
  Sprintf_d : Z -> string          (* fmt.Sprintf("%d", n) *)
}.

Module asciitext.

Definition is_space (c : ascii) : bool :=
  let n := nat_of_ascii c in
  (Nat.eqb n 32 || (Nat.leb 9 n && Nat.leb n 13))%bool.

Definition lower (c : ascii) : ascii :=
  let n := nat_of_ascii c in
  if (Nat.leb 65 n && Nat.leb n 90)%bool then ascii_of_nat (n + 32) else c.

Fixpoint ToLower (s : string) : string :=
  match s with
  | EmptyString => EmptyString
  | String c s' => String (lower c) (ToLower s')
  end.

Fixpoint trim_left (s : string) : string :=
  match s with
  | String c s' => if is_space c then trim_left s' else s
  | EmptyString => EmptyString
  end.

(** Drops the trailing white space: a character is kept when it is not a
    space or when something is kept after it. *)
Fixpoint trim_right (s : string) : string :=
  match s with
  | EmptyString => EmptyString
  | String c s' =>
      match trim_right s' with
      | EmptyString => if is_space c then EmptyString else String c EmptyString
      | r => String c r
      end
  end.

Definition TrimSpace (s : string) : string := trim_right (trim_left s).

(** The maximal runs of non-space characters; [cur] is the run being
    read, reversed. *)
Fixpoint fields_from (cur : list ascii) (s : string) : list string :=
  let flush (rest : list string) :=
    match cur with
    | [] => rest
    | _ => string_of_list_ascii (List.rev cur) :: rest
    end in
  match s with
  | EmptyString => flush []
  | String c s' =>
      if is_space c then flush (fields_from [] s')
      else fields_from (c :: cur) s'
  end.

Definition Fields (s : string) : list string := fields_from [] s.

Definition digit (c : ascii) : option Z :=
  let n := nat_of_ascii c in
  if (Nat.leb 48 n && Nat.leb n 57)%bool then Some (Z.of_nat (n - 48)) else None.

(** The leading digits of [s] read in base ten after [acc]; [None] when
    there is no digit at all. *)
Fixpoint digits (seen : bool) (acc : Z) (s : string) : option Z :=
  match s with
  | EmptyString => if seen then Some acc else None
  | String c s' =>
      match digit c with
      | Some d => digits true (10 * acc + d) s'
      | None => if seen then Some acc else None
      end
  end.

(** [%d] into an int64: an optional sign and digits; the variable keeps
    its value when nothing is read or the number does not fit. *)
Definition Sscanf_d (s : string) (before : Z) : Z :=
  let '(neg, body) :=
    match s with
    | String "-" s' => (true, s')
    | String "+" s' => (false, s')
    | _ => (false, s)
    end in
  match digits false 0 body with
  | Some n =>
      let v := if neg then - n else n in
      if bool_decide (- 2 ^ 63 <= v < 2 ^ 63) then v else before
  | None => before
  end.

(** [%q] on text with nothing to escape but the quote and the
    backslash. *)
Fixpoint escape (s : string) : string :=
  match s with
  | EmptyString => EmptyString
  | String c s' =>
      if (Ascii.eqb c dquote || Ascii.eqb c "\")%bool
      then String "\" (String c (escape s'))
      else String c (escape s')
  end.

Definition Sprintf_q (s : string) : string :=
  String dquote (escape s ++ String dquote EmptyString).

Definition digit_char (d : nat) : ascii := ascii_of_nat (48 + d).

Fixpoint decimal (fuel : nat) (n : nat) (acc : string) : string :=
  match fuel with
  | O => acc
  | S fuel' =>
      let acc' := String (digit_char (n mod 10)) acc in
      if Nat.ltb n 10 then acc' else decimal fuel' (n / 10) acc'
  end.

Definition Sprintf_d (n : Z) : string :=
  let m := Z.to_nat (Z.abs n) in
  let body := decimal (S m) m EmptyString in
  if bool_decide (n < 0) then String "-" body else body.

End asciitext.

Definition ascii_text : Text := {|
  ToLower := asciitext.ToLower;
  TrimSpace := asciitext.TrimSpace;
  Fields := asciitext.Fields;
  Sscanf_d := asciitext.Sscanf_d;
  Sprintf_q := asciitext.Sprintf_q;
  Sprintf_d := asciitext.Sprintf_d
|}.

(** ** Package path/filepath, Unix separator *)

Module filepath.

Definition sep : ascii := "/".

(** One path element met by [Clean], on the stack of the elements kept so
    far (last first): empty and [.] elements vanish, [..] removes the
    element before it, is dropped at the root, and is kept otherwise. *)
Definition clean_step (rooted : bool) (stack : list string) (e : string)
  : list string :=
  if String.eqb e "" || String.eqb e "." then stack
  else if String.eqb e ".." then
    match stack with
    | top :: rest =>
        if String.eqb top ".." then e :: stack else rest
    | [] => if rooted then [] else [e]
    end
  else e :: stack.

(** [filepath.Clean]: the shortest path name equivalent to [path] by
    purely lexical processing. *)
Definition Clean (path : string) : string :=
  let rooted := String.prefix "/" path in
  let kept := List.rev (List.fold_left (clean_step rooted) (strings.Split path sep) []) in
  let body := String.concat "/" kept in
  if rooted then "/" ++ body
  else if String.eqb body "" then "." else body.

(** [filepath.Join]: the elements from the first non-empty one on, joined
    with the separator and cleaned; the empty string when all are
    empty. *)
Fixpoint Join (elem : list string) : string :=
  match elem with
  | [] => ""
  | e :: rest =>
      if String.eqb e "" then Join rest
      else Clean (String.concat "/" elem)
  end.

(** The path without its trailing separators. *)
Fixpoint strip_trailing (s : string) : string :=
  match s with
  | EmptyString => EmptyString
  | String c s' =>
      match strip_trailing s' with
      | EmptyString =>
          if Ascii.eqb c sep then EmptyString else String c EmptyString
      | r => String c r
      end
  end.

(** What follows the last separator of [s] ([s] itself without one). *)
Fixpoint after_last (s : string) : string :=
  match s with
  | EmptyString => EmptyString
  | String c s' =>
      if existsb (Ascii.eqb sep) (list_ascii_of_string s')
      then after_last s'
      else if Ascii.eqb c sep then s' else s
  end.

(** What precedes and includes the last separator of [s]. *)
Fixpoint upto_last (s : string) : string :=
  match s with
  | EmptyString => EmptyString
  | String c s' =>
      if existsb (Ascii.eqb sep) (list_ascii_of_string s')
      then String c (upto_last s')
      else if Ascii.eqb c sep then String c EmptyString else EmptyString
  end.

(** [filepath.Base]: the last element of the path. *)
Definition Base (path : string) : string :=
  if String.eqb path "" then "."
  else
    let p := after_last (strip_trailing path) in
    if String.eqb p "" then "/" else p.

(** [filepath.Dir]: all but the last element, cleaned. *)
Definition Dir (path : string) : string := Clean (upto_last path).

End filepath.

(** ** Package history: the per-host store *)

Module history.

Record PortForwardConfig := {
  Type_ : string;
  LocalPort : string;
  RemoteHost : string;
  RemotePort : string;
  BindAddress : string
}.

Record TransferHistoryEntry := {
  Direction : string;      (* "upload" or "download" *)
  LocalPath : string;
  RemotePath : string;
  Timestamp : Z
}.

Record ConnectionInfo := {
  HostName : string;
  LastConnect : Z;
  ConnectCount : Z;
  PortForwarding : option PortForwardConfig;
  TransferHistory : list TransferHistoryEntry
}.

(** [HistoryManager.history.Connections], the map the manager mutates in
    place and saves after every mutation. *)
Abbreviation Connections := (gmap string ConnectionInfo).

(** [RecordTransfer], with [now] the value of [time.Now()]. *)
Definition RecordTransfer (now : Z)
    (hostName direction localPath remotePath : string)
    (conns : Connections) : Connections :=
  let entry := {| Direction := direction; LocalPath := localPath;
                  RemotePath := remotePath; Timestamp := now |} in
  match conns !! hostName with
  | Some conn =>
      let h := entry :: TransferHistory conn in
      let h := if bool_decide (len h > 10) then take 10 h else h in
      <[hostName := {| HostName := HostName conn;
                       LastConnect := now;
                       ConnectCount := ConnectCount conn;
                       PortForwarding := PortForwarding conn;
                       TransferHistory := h |}]> conns
  | None =>
      <[hostName := {| HostName := hostName;
                       LastConnect := now;
                       ConnectCount := 0;
                       PortForwarding := None;
                       TransferHistory := [entry] |}]> conns
  end.

(** [GetTransferHistory]. *)
Definition GetTransferHistory (hostName : string) (conns : Connections)
  : list TransferHistoryEntry :=
  match conns !! hostName with
  | Some conn => TransferHistory conn
  | None => []
  end.

(** One recorded transfer: the arguments of a [RecordTransfer] call and
    the clock at the call. *)
Record Call := {
  c_now : Z;
  c_host : string;
  c_direction : string;
  c_local : string;
  c_remote : string
}.

Definition entry_of (c : Call) : TransferHistoryEntry :=
  {| Direction := c_direction c; LocalPath := c_local c;
     RemotePath := c_remote c; Timestamp := c_now c |}.

Definition record (conns : Connections) (c : Call) : Connections :=
  RecordTransfer (c_now c) (c_host c) (c_direction c) (c_local c)
    (c_remote c) conns.

(** A sequence of calls, oldest first. *)
Definition record_all (calls : list Call) (conns : Connections) : Connections :=
  List.fold_left record calls conns.

(** The entries of the calls made for [hostName], oldest first. *)
Definition entries_for (hostName : string) (calls : list Call)
  : list TransferHistoryEntry :=
  List.map entry_of
    (List.filter (fun c => String.eqb (c_host c) hostName) calls).

End history.

(** ** Package sort *)

Module sort.

(** One pass of the inner loop of Go's insertion sort: the new element
    [x] moves left past every element it is less than.  [before] is the
    sorted part read from the right. *)
Fixpoint insert_left {A} (less : A -> A -> bool) (x : A) (before : list A)
  : list A :=
  match before with
  | [] => [x]
  | y :: rest =>
      if less x y then y :: insert_left less x rest
      else x :: before
  end.

(** Insertion sort as package sort runs it, left to right. *)
Definition insertionSort {A} (less : A -> A -> bool) (l : list A) : list A :=
  List.rev (List.fold_left (fun before x => insert_left less x before) l []).

(** [sort.SliceStable]: a stable sort has one result for a given
    ordering ([stable_sort_unique] below), the one insertion sort
    computes. *)
Definition SliceStable {A} (less : A -> A -> bool) (l : list A) : list A :=
  insertionSort less l.

(** Neither element is less than the other. *)
Definition equivalent {A} (less : A -> A -> bool) (a b : A) : bool :=
  negb (less a b) && negb (less b a).

(** [sort.Slice] is not stable and its algorithm is not part of its
    contract: the embedding takes any implementation. *)
Class Slicer := Slice : forall A : Type, (A -> A -> bool) -> list A -> list A.

(** The sorted part as the inner loop reads it, last element first:
    every element is not less than those after it in the reading. *)
Definition descending {A} (less : A -> A -> bool) (l : list A) : Prop :=
  StronglySorted (fun a b => less a b = false) l.

(** No element is less than one placed before it. *)
Definition sorted_by {A} (less : A -> A -> bool) (l : list A) : Prop :=
  StronglySorted (fun a b => less b a = false) l.

(** The contract of a stable sort: the result is sorted and the elements
    equivalent to any given one are those of the slice, in the order of
    the slice. *)
Definition stable_sort_of {A} (less : A -> A -> bool) (l out : list A)
  : Prop :=
  sorted_by less out /\
  forall a, List.filter (equivalent less a) out =
            List.filter (equivalent less a) l.

(** What a comparison must satisfy on the slice for the result to be
    sorted: two elements at different places are never each less than the
    other, and "not less than" is transitive. *)
Definition asymmetric_on {A} (less : A -> A -> bool) (l : list A) : Prop :=
  StronglySorted (fun a b => less a b && less b a = false) l.

Definition negatively_transitive_on {A} (less : A -> A -> bool) (l : list A)
  : Prop :=
  forall a b c, In a l -> In b l -> In c l ->
    less a b = false -> less b c = false -> less a c = false.

(** The contract of [sort.Slice]: the result is a rearrangement of the
    slice, sorted whenever the comparison is an ordering of it. *)
Definition Slice_contract (S : Slicer) : Prop :=
  forall (A : Type) (less : A -> A -> bool) (l : list A),
    Permutation (Slice A less l) l /\
    (asymmetric_on less l -> negatively_transitive_on less l ->
     sorted_by less (Slice A less l)).

(** The implementation used to run the embedding. *)
Definition insertion_slicer : Slicer := fun A less l => insertionSort less l.

End sort.

(** ** Package transfer: the remote session *)

Module transfer.

Record RemoteFile := {
  Name : string;
  Path : string;
  IsDir : bool;
  Size : Z
}.

(** What a call returns: a value, an error, or a run-time panic. *)
Inductive outcome (A : Type) :=
| Ok (a : A)
| Err (e : string)
| Panic.
Arguments Ok {A} a.
Arguments Err {A} e.
Arguments Panic {A}.

(** The remote side as the session sees it. *)
Record Remote := {
  (* s.client.NewSession() for the session of the call itself *)
  session : error;
  (* whether the further sessions of the call can be opened *)
  helper : bool;
  (* the output of "echo $HOME" on a helper session, when it fails not *)
  home : option string;
  (* session.Output(cmd): the output and the error *)
  Output : string -> string * error
}.

Section Session.
Context {T : Text} {S : sort.Slicer}.

(** The expansion of a leading [~], shared by the three calls. *)
Definition expand_home (r : Remote) (path : string) : string :=
  if strings.HasPrefix path "~" then
    if helper r then
      match home r with
      | Some out => strings.ReplaceFirst path "~" (TrimSpace out)
      | None => path
      end
    else path
  else path.

(** The comparison [ListDirectory] sorts with. *)
Definition less_entry (a b : RemoteFile) : bool :=
  if String.eqb (Name a) ".." then true
  else if String.eqb (Name b) ".." then false
  else if negb (Bool.eqb (IsDir a) (IsDir b)) then IsDir a
  else String.ltb (ToLower (Name a)) (ToLower (Name b)).

(** One line of the long listing: the entry it describes, if any. *)
Definition parse_ls_line (r : Remote) (path line : string) : option RemoteFile :=
  let line := TrimSpace line in
  if String.eqb line "" then None else
  let fields := Fields line in
  if bool_decide (len fields < 9) then None else
  let permissions := nth 0 fields "" in
  let size := Sscanf_d (nth 4 fields "") 0 in
  let name := strings.Join (drop 8 fields) " " in
  if String.eqb name "." || String.eqb name ".." then None else
  let isDir := strings.HasPrefix permissions "d" in
  let isLink := strings.HasPrefix permissions "l" in
  let isDir :=
    if isLink && helper r then
      let linkPath := filepath.Join [path; name] in
      let checkCmd := "test -d " ++ Sprintf_q linkPath ++ " && echo dir" in
      String.eqb (TrimSpace (fst (Output r checkCmd))) "dir"
    else isDir in
  Some {| Name := name; Path := filepath.Join [path; name];
          IsDir := isDir; Size := size |}.

Definition parent_entry (path : string) : RemoteFile :=
  {| Name := ".."; Path := filepath.Dir path; IsDir := true; Size := 0 |}.

(** The slice before it is sorted: the parent entry unless the path is
    the root, then the parsed lines. *)
Definition listing (r : Remote) (path output : string) : list RemoteFile :=
  (if String.eqb path "/" then [] else [parent_entry path]) ++
  omap (parse_ls_line r path) (strings.Split output "010").

(** [SFTPSession.ListDirectory]. *)
Definition ListDirectory (r : Remote) (path : string)
  : outcome (list RemoteFile) :=
  match session r with
  | Some e => Err ("failed to create session: " ++ e)
  | None =>
      let path := expand_home r path in
      let cmd := "ls -la " ++ Sprintf_q path ++ " 2>/dev/null | tail -n +2" in
      match Output r cmd with
      | (_, Some e) => Err ("failed to list directory: " ++ e)
      | (output, None) =>
          Ok (sort.Slice _ less_entry (listing r path output))
      end
  end.

(** The seven replacements of [QuickSearch], in the order of the
    source. *)
Definition sanitize (pattern : string) : string :=
  let pattern := strings.ReplaceAll pattern "'" "" in
  let pattern := strings.ReplaceAll pattern (String dquote "") "" in
  let pattern := strings.ReplaceAll pattern ";" "" in
  let pattern := strings.ReplaceAll pattern "|" "" in
  let pattern := strings.ReplaceAll pattern "&" "" in
  let pattern := strings.ReplaceAll pattern "$" "" in
  let pattern := strings.ReplaceAll pattern "`" "" in
  pattern.

(** The two command lines, split around the place of the pattern. *)
Definition find_head (prefix startDir : string) : string :=
  prefix ++ "find " ++ Sprintf_q startDir ++ " -maxdepth 5 -iname '*".

Definition primary_tail (limit : Z) : string :=
  "*' -printf '%y %p\n' 2>/dev/null | head -n " ++ Sprintf_d limit.

Definition fallback_tail (limit : Z) : string :=
  let q := String dquote "" in
  "*' 2>/dev/null | head -n " ++ Sprintf_d limit ++
  " | while read f; do if [ -d " ++ q ++ "$f" ++ q ++ " ]; then echo " ++
  q ++ "d $f" ++ q ++ "; else echo " ++ q ++ "f $f" ++ q ++ "; fi; done".

Definition primary_cmd (startDir pattern : string) (limit : Z) : string :=
  find_head "timeout 3s " startDir ++ pattern ++ primary_tail limit.

Definition fallback_cmd (startDir pattern : string) (limit : Z) : string :=
  find_head "" startDir ++ pattern ++ fallback_tail limit.

(** One line of the search output: a type character, a space, the
    path. *)
Definition parse_find_line (line : string) : option RemoteFile :=
  let line := TrimSpace line in
  if String.eqb line "" || bool_decide (slen line < 3) then None else
  let path := TrimSpace (String.substring 2 (String.length line) line) in
  Some {| Name := filepath.Base path; Path := path;
          IsDir := match line with
                   | String c _ => Ascii.eqb c "d"
                   | EmptyString => false
                   end;
          Size := 0 |}.

Definition parse_find (output : string) : list RemoteFile :=
  omap parse_find_line (strings.Split output "010").

(** A call of [QuickSearch]: the search commands it ran on the remote
    side, in order, and what it returned. *)
Record searched := {
  issued : list string;
  returned : outcome (list RemoteFile)
}.

(** [SFTPSession.QuickSearch]. *)
Definition QuickSearch (r : Remote) (pattern startDir : string) (limit : Z)
  : searched :=
  let limit := if bool_decide (limit <= 0) then 30 else limit in
  match session r with
  | Some e => {| issued := []; returned := Err e |}
  | None =>
      let startDir := expand_home r startDir in
      let pattern := sanitize pattern in
      let cmd := primary_cmd startDir pattern limit in
      match Output r cmd with
      | (output, None) =>
          {| issued := [cmd]; returned := Ok (parse_find output) |}
      | (_, Some _) =>
          let cmd2 := fallback_cmd startDir pattern limit in
          if helper r then
            match Output r cmd2 with
            | (output, None) =>
                {| issued := [cmd; cmd2]; returned := Ok (parse_find output) |}
            | (_, Some _) =>
                {| issued := [cmd; cmd2]; returned := Ok [] |}
            end
          else
            (* session2 is nil and session2.Output dereferences it *)
            {| issued := [cmd]; returned := Panic |}
      end
  end.

End Session.

(** ** Package transfer: the transfer engine *)

Inductive Direction := Upload | Download.

Record TransferRequest := {
  Host : string;
  Direction_ : Direction;
  LocalPath : string;
  RemotePath : string;
  Recursive : bool;
  ConfigFile : string
}.

Record TransferResult := {
  Success : bool;
  Error : error
}.

(** The arguments [StartTransfer] (and [BuildSCPCommand]) hands to
    [scp]. *)
Definition scp_args (r : TransferRequest) : list string :=
  (if Recursive r then ["-r"] else []) ++
  (if String.eqb (ConfigFile r) "" then [] else ["-F"; ConfigFile r]) ++
  match Direction_ r with
  | Upload => [LocalPath r; Host r ++ ":" ++ RemotePath r]
  | Download => [Host r ++ ":" ++ RemotePath r; LocalPath r]
  end.

(** The [scp] process as the operating system has it. *)
Inductive process :=
| NoProcess                (* cmd.Start failed: cmd.Process is nil *)
| Running
| Exited (status : error). (* what cmd.Wait returns *)

(** Where the goroutine of [StartTransfer] stands. *)
Inductive waiter :=
| NotSpawned               (* cmd.Start failed: no goroutine *)
| Waiting                  (* in cmd.Wait() *)
| Woken (status : error)   (* Wait returned, rt.killed not yet read *)
| Sending (res : TransferResult) (* branch taken, send not yet done *)
| Finished.

(** A [RunningTransfer] with the threads that share it: the process, the
    [killed] flag, the goroutine, the buffered channel [done] and what
    its reader has taken from it.  [killing] holds between the two
    statements of a [Cancel] call. *)
Record RunningTransfer := {
  cmd : process;
  killed : bool;
  pc : waiter;
  done : list TransferResult;
  delivered : list TransferResult;
  killing : bool
}.

Definition cancelled : TransferResult :=
  {| Success := false; Error := Some "transfer cancelled" |}.

(** The result the goroutine chooses once [Wait] has returned
    [status]. *)
Definition choose (killed : bool) (status : error) : TransferResult :=
  if killed then cancelled
  else match status with
       | Some e => {| Success := false; Error := Some e |}
       | None => {| Success := true; Error := None |}
       end.

(** [StartTransfer], after [cmd.Start()] has returned [started]. *)
Definition StartTransfer (started : error) : RunningTransfer :=
  match started with
  | Some e =>
      {| cmd := NoProcess; killed := false; pc := NotSpawned;
         done := [{| Success := false; Error := Some e |}];
         delivered := []; killing := false |}
  | None =>
      {| cmd := Running; killed := false; pc := Waiting;
         done := []; delivered := []; killing := false |}
  end.

(** The atomic steps of the threads around a transfer. *)
Inductive action :=
| ProcessExits (status : error) (* scp ends by itself *)
| WaitReturns                   (* goroutine: err := cmd.Wait() *)
| ReadKilled                    (* goroutine: if rt.killed ... *)
| Send                          (* goroutine: rt.done <- result *)
| CancelFlag                    (* Cancel: the nil test and rt.killed = true *)
| CancelKill                    (* Cancel: rt.cmd.Process.Kill() *)
| Receive.                      (* reader: <-rt.Done() *)

Definition set_cmd (p : process) (rt : RunningTransfer) : RunningTransfer :=
  {| cmd := p; killed := killed rt; pc := pc rt; done := done rt;
     delivered := delivered rt; killing := killing rt |}.

Definition set_pc (w : waiter) (rt : RunningTransfer) : RunningTransfer :=
  {| cmd := cmd rt; killed := killed rt; pc := w; done := done rt;
     delivered := delivered rt; killing := killing rt |}.

(** The first statement of [Cancel]: with a process, the flag is
    raised. *)
Definition cancel_flag (rt : RunningTransfer) : RunningTransfer :=
  match cmd rt with
  | NoProcess => rt
  | _ => {| cmd := cmd rt; killed := true; pc := pc rt; done := done rt;
            delivered := delivered rt; killing := true |}
  end.

(** The second statement of [Cancel]: the signal ends a running process
    and is an ignored error on one that has exited. *)
Definition cancel_kill (rt : RunningTransfer) : RunningTransfer :=
  {| cmd := match cmd rt with
            | Running => Exited (Some "signal: killed")
            | p => p
            end;
     killed := killed rt; pc := pc rt; done := done rt;
     delivered := delivered rt; killing := false |}.

(** [RunningTransfer.Cancel] run without interruption. *)
Definition Cancel (rt : RunningTransfer) : RunningTransfer :=
  match cmd rt with
  | NoProcess => rt
  | _ => cancel_kill (cancel_flag rt)
  end.

(** One step; [None] when the thread cannot take it in this state. *)
Definition step (rt : RunningTransfer) (a : action) : option RunningTransfer :=
  match a with
  | ProcessExits status =>
      match cmd rt with
      | Running => Some (set_cmd (Exited status) rt)
      | _ => None
      end
  | WaitReturns =>
      match pc rt, cmd rt with
      | Waiting, Exited status => Some (set_pc (Woken status) rt)
      | _, _ => None
      end
  | ReadKilled =>
      match pc rt with
      | Woken status => Some (set_pc (Sending (choose (killed rt) status)) rt)
      | _ => None
      end
  | Send =>
      match pc rt, done rt with
      | Sending res, [] =>
          Some {| cmd := cmd rt; killed := killed rt; pc := Finished;
                  done := [res]; delivered := delivered rt;
                  killing := killing rt |}
      | _, _ => None
      end
  | CancelFlag =>
      if killing rt then None else Some (cancel_flag rt)
  | CancelKill =>
      if killing rt then Some (cancel_kill rt) else None
  | Receive =>
      match done rt with
      | res :: rest =>
          Some {| cmd := cmd rt; killed := killed rt; pc := pc rt;
                  done := rest; delivered := delivered rt ++ [res];
                  killing := killing rt |}
      | [] => None
      end
  end.

(** A schedule, run from left to right. *)
Fixpoint exec (rt : RunningTransfer) (sched : list action)
  : option RunningTransfer :=
  match sched with
  | [] => Some rt
  | a :: rest =>
      match step rt a with
      | Some rt' => exec rt' rest
      | None => None
      end
  end.


End transfer.

(** ** Package ui: the remote browser *)

Module ui.
Import transfer.

Inductive BrowserMode := BrowseFiles | BrowseDirectories.

(** The [*transfer.SFTPSession] field: nil, a session, or a session on
    which [Close] has been called. *)
Inductive SessionRef := NoSession | Opened | Closed.

Record remoteBrowserModel := {
  host : string;
  configFile : string;
  currentDir : string;
  files : list RemoteFile;
  visibleFiles : list RemoteFile;
  cursor : Z;
  selected : string;
  err : string;
  loading : bool;
  mode : BrowserMode;
  width : Z;
  height : Z;
  session : SessionRef;
  searchMode : bool;
  searchQuery : string;
  searchFiles : list RemoteFile;
  hasLocate : bool;
  showHidden : bool;
  pendingSearch : string;
  searchTriggered : bool
}.

(** Assignments to the fields that [Update] writes. *)
Definition set_currentDir (v : string) (m : remoteBrowserModel)
  : remoteBrowserModel :=
  {| host := host m; configFile := configFile m; currentDir := v;
     files := files m; visibleFiles := visibleFiles m; cursor := cursor m;
     selected := selected m; err := err m; loading := loading m;
     mode := mode m; width := width m; height := height m;
     session := session m; searchMode := searchMode m;
     searchQuery := searchQuery m; searchFiles := searchFiles m;
     hasLocate := hasLocate m; showHidden := showHidden m;
     pendingSearch := pendingSearch m;
     searchTriggered := searchTriggered m |}.
Definition set_files (v : list RemoteFile) (m : remoteBrowserModel)
  : remoteBrowserModel :=
  {| host := host m; configFile := configFile m;
     currentDir := currentDir m; files := v;
     visibleFiles := visibleFiles m; cursor := cursor m;
     selected := selected m; err := err m; loading := loading m;
     mode := mode m; width := width m; height := height m;
     session := session m; searchMode := searchMode m;
     searchQuery := searchQuery m; searchFiles := searchFiles m;
     hasLocate := hasLocate m; showHidden := showHidden m;
     pendingSearch := pendingSearch m;
     searchTriggered := searchTriggered m |}.
Definition set_visibleFiles (v : list RemoteFile) (m : remoteBrowserModel)
  : remoteBrowserModel :=
  {| host := host m; configFile := configFile m;
     currentDir := currentDir m; files := files m; visibleFiles := v;
     cursor := cursor m; selected := selected m; err := err m;
     loading := loading m; mode := mode m; width := width m;
     height := height m; session := session m; searchMode := searchMode m;
     searchQuery := searchQuery m; searchFiles := searchFiles m;
     hasLocate := hasLocate m; showHidden := showHidden m;
     pendingSearch := pendingSearch m;
     searchTriggered := searchTriggered m |}.
Definition set_cursor (v : Z) (m : remoteBrowserModel)
  : remoteBrowserModel :=
  {| host := host m; configFile := configFile m;
     currentDir := currentDir m; files := files m;
     visibleFiles := visibleFiles m; cursor := v; selected := selected m;
     err := err m; loading := loading m; mode := mode m; width := width m;
     height := height m; session := session m; searchMode := searchMode m;
     searchQuery := searchQuery m; searchFiles := searchFiles m;
     hasLocate := hasLocate m; showHidden := showHidden m;
     pendingSearch := pendingSearch m;
     searchTriggered := searchTriggered m |}.
Definition set_err (v : string) (m : remoteBrowserModel)
  : remoteBrowserModel :=
  {| host := host m; configFile := configFile m;
     currentDir := currentDir m; files := files m;
     visibleFiles := visibleFiles m; cursor := cursor m;
     selected := selected m; err := v; loading := loading m;
     mode := mode m; width := width m; height := height m;
     session := session m; searchMode := searchMode m;
     searchQuery := searchQuery m; searchFiles := searchFiles m;
     hasLocate := hasLocate m; showHidden := showHidden m;
     pendingSearch := pendingSearch m;
     searchTriggered := searchTriggered m |}.
Definition set_loading (v : bool) (m : remoteBrowserModel)
  : remoteBrowserModel :=
  {| host := host m; configFile := configFile m;
     currentDir := currentDir m; files := files m;
     visibleFiles := visibleFiles m; cursor := cursor m;
     selected := selected m; err := err m; loading := v; mode := mode m;
     width := width m; height := height m; session := session m;
     searchMode := searchMode m; searchQuery := searchQuery m;
     searchFiles := searchFiles m; hasLocate := hasLocate m;
     showHidden := showHidden m; pendingSearch := pendingSearch m;
     searchTriggered := searchTriggered m |}.
Definition set_session (v : SessionRef) (m : remoteBrowserModel)
  : remoteBrowserModel :=
  {| host := host m; configFile := configFile m;
     currentDir := currentDir m; files := files m;
     visibleFiles := visibleFiles m; cursor := cursor m;
     selected := selected m; err := err m; loading := loading m;
     mode := mode m; width := width m; height := height m; session := v;
     searchMode := searchMode m; searchQuery := searchQuery m;
     searchFiles := searchFiles m; hasLocate := hasLocate m;
     showHidden := showHidden m; pendingSearch := pendingSearch m;
     searchTriggered := searchTriggered m |}.
Definition set_searchMode (v : bool) (m : remoteBrowserModel)
  : remoteBrowserModel :=
  {| host := host m; configFile := configFile m;
     currentDir := currentDir m; files := files m;
     visibleFiles := visibleFiles m; cursor := cursor m;
     selected := selected m; err := err m; loading := loading m;
     mode := mode m; width := width m; height := height m;
     session := session m; searchMode := v; searchQuery := searchQuery m;
     searchFiles := searchFiles m; hasLocate := hasLocate m;
     showHidden := showHidden m; pendingSearch := pendingSearch m;
     searchTriggered := searchTriggered m |}.
Definition set_searchQuery (v : string) (m : remoteBrowserModel)
  : remoteBrowserModel :=
  {| host := host m; configFile := configFile m;
     currentDir := currentDir m; files := files m;
     visibleFiles := visibleFiles m; cursor := cursor m;
     selected := selected m; err := err m; loading := loading m;
     mode := mode m; width := width m; height := height m;
     session := session m; searchMode := searchMode m; searchQuery := v;
     searchFiles := searchFiles m; hasLocate := hasLocate m;
     showHidden := showHidden m; pendingSearch := pendingSearch m;
     searchTriggered := searchTriggered m |}.
Definition set_searchFiles (v : list RemoteFile) (m : remoteBrowserModel)
  : remoteBrowserModel :=
  {| host := host m; configFile := configFile m;
     currentDir := currentDir m; files := files m;
     visibleFiles := visibleFiles m; cursor := cursor m;
     selected := selected m; err := err m; loading := loading m;
     mode := mode m; width := width m; height := height m;
     session := session m; searchMode := searchMode m;
     searchQuery := searchQuery m; searchFiles := v;
     hasLocate := hasLocate m; showHidden := showHidden m;
     pendingSearch := pendingSearch m;
     searchTriggered := searchTriggered m |}.
Definition set_showHidden (v : bool) (m : remoteBrowserModel)
  : remoteBrowserModel :=
  {| host := host m; configFile := configFile m;
     currentDir := currentDir m; files := files m;
     visibleFiles := visibleFiles m; cursor := cursor m;
     selected := selected m; err := err m; loading := loading m;
     mode := mode m; width := width m; height := height m;
     session := session m; searchMode := searchMode m;
     searchQuery := searchQuery m; searchFiles := searchFiles m;
     hasLocate := hasLocate m; showHidden := v;
     pendingSearch := pendingSearch m;
     searchTriggered := searchTriggered m |}.
Definition set_pendingSearch (v : string) (m : remoteBrowserModel)
  : remoteBrowserModel :=
  {| host := host m; configFile := configFile m;
     currentDir := currentDir m; files := files m;
     visibleFiles := visibleFiles m; cursor := cursor m;
     selected := selected m; err := err m; loading := loading m;
     mode := mode m; width := width m; height := height m;
     session := session m; searchMode := searchMode m;
     searchQuery := searchQuery m; searchFiles := searchFiles m;
     hasLocate := hasLocate m; showHidden := showHidden m;
     pendingSearch := v; searchTriggered := searchTriggered m |}.
Definition set_searchTriggered (v : bool) (m : remoteBrowserModel)
  : remoteBrowserModel :=
  {| host := host m; configFile := configFile m;
     currentDir := currentDir m; files := files m;
     visibleFiles := visibleFiles m; cursor := cursor m;
     selected := selected m; err := err m; loading := loading m;
     mode := mode m; width := width m; height := height m;
     session := session m; searchMode := searchMode m;
     searchQuery := searchQuery m; searchFiles := searchFiles m;
     hasLocate := hasLocate m; showHidden := showHidden m;
     pendingSearch := pendingSearch m; searchTriggered := v |}.

(** [m.session.Close()] under its nil test. *)
Definition close_session (m : remoteBrowserModel) : remoteBrowserModel :=
  match session m with
  | NoSession => m
  | _ => set_session Closed m
  end.

(** The messages [Update] handles; [KeyMsg] carries [msg.String()]. *)
Inductive Msg :=
| remoteBrowserLoadedMsg (files : list RemoteFile) (dir : string) (err : error)
| remoteBrowserSearchMsg (files : list RemoteFile) (query : string) (err : error)
| searchDebounceMsg (query : string)
| KeyMsg (key : string)
| OtherMsg.

(** The commands [Update] returns, by what they will do. *)
Inductive Cmd :=
| NoCmd                               (* nil *)
| loadDirectory (path : string)       (* m.loadDirectory(path) *)
| runSearch (query : string)          (* m.runSearch(), query captured *)
| scheduleSearch (query : string)     (* m.scheduleSearch(query) *)
| remoteBrowserResultMsg (path : string) (selected : bool).

(** [NewRemoteBrowser]. *)
Definition NewRemoteBrowser (host startPath configFile : string)
    (mode : BrowserMode) (width height : Z) : remoteBrowserModel :=
  let startPath := if String.eqb startPath "" then "~" else startPath in
  {| host := host; configFile := configFile; currentDir := startPath;
     files := []; visibleFiles := []; cursor := 0; selected := "";
     err := ""; loading := true; mode := mode; width := width;
     height := height; session := NoSession; searchMode := false;
     searchQuery := ""; searchFiles := []; hasLocate := false;
     showHidden := false; pendingSearch := ""; searchTriggered := false |}.

Definition Init (m : remoteBrowserModel) : Cmd := loadDirectory (currentDir m).

Definition key_in (key : string) (keys : list string) : bool :=
  existsb (String.eqb key) keys.

(** [filterFiles]. *)
Definition filterFiles (m : remoteBrowserModel) : remoteBrowserModel :=
  if showHidden m then set_visibleFiles (files m) m
  else
    set_visibleFiles
      (List.filter
         (fun f => String.eqb (Name f) ".." || negb (strings.HasPrefix (Name f) "."))
         (files m)) m.

(** The clamp that follows a change of the list under the cursor. *)
Definition clamp_cursor (n : Z) (m : remoteBrowserModel) : remoteBrowserModel :=
  if bool_decide (cursor m >= n) then
    let m := set_cursor (n - 1) m in
    if bool_decide (cursor m < 0) then set_cursor 0 m else m
  else m.

Section Browser.
Context {T : Text}.

(** [filterSearchResults]. *)
Definition filterSearchResults (m : remoteBrowserModel) : remoteBrowserModel :=
  if bool_decide (slen (searchQuery m) < 3) then m
  else
    let query := ToLower (searchQuery m) in
    let filtered :=
      List.filter
        (fun f => strings.Contains (ToLower (Name f)) query ||
                  strings.Contains (ToLower (Path f)) query)
        (searchFiles m) in
    let m := set_searchFiles filtered m in
    clamp_cursor (len (searchFiles m)) m.

(** The comparison of [sortSearchResults] for the lowered [query]. *)
Definition less_result (query : string) (fi fj : RemoteFile) : bool :=
  let nameI := ToLower (Name fi) in
  let nameJ := ToLower (Name fj) in
  let exactI := String.eqb nameI query in
  let exactJ := String.eqb nameJ query in
  if negb (Bool.eqb exactI exactJ) then exactI else
  let startsI := strings.HasPrefix nameI query in
  let startsJ := strings.HasPrefix nameJ query in
  if negb (Bool.eqb startsI startsJ) then startsI else
  let containsI := strings.Contains nameI query in
  let containsJ := strings.Contains nameJ query in
  if negb (Bool.eqb containsI containsJ) then containsI else
  bool_decide (slen (Path fi) < slen (Path fj)).

(** [sortSearchResults]. *)
Definition sortSearchResults (m : remoteBrowserModel) : remoteBrowserModel :=
  if bool_decide (len (searchFiles m) = 0) || bool_decide (slen (searchQuery m) < 3)
  then m
  else
    let query := ToLower (searchQuery m) in
    set_searchFiles (sort.SliceStable (less_result query) (searchFiles m)) m.

(** The fields cleared on every way out of search mode. *)
Definition leave_search (m : remoteBrowserModel) : remoteBrowserModel :=
  let m := set_searchMode false m in
  let m := set_searchQuery "" m in
  let m := set_searchFiles [] m in
  let m := set_pendingSearch "" m in
  set_searchTriggered false m.

Definition cursor_up (m : remoteBrowserModel) : remoteBrowserModel :=
  if bool_decide (cursor m > 0) then set_cursor (cursor m - 1) m else m.

Definition cursor_down (n : Z) (m : remoteBrowserModel) : remoteBrowserModel :=
  if bool_decide (cursor m < n - 1) then set_cursor (cursor m + 1) m else m.

(** [s[:len(s)-1]] of a non-empty string. *)
Fixpoint drop_last (s : string) : string :=
  match s with
  | EmptyString => EmptyString
  | String c EmptyString => EmptyString
  | String c s' => String c (drop_last s')
  end.

(** [len(char) == 1 && char[0] >= 32 && char[0] < 127]. *)
Definition printable (char : string) : bool :=
  match char with
  | String c EmptyString =>
      let n := nat_of_ascii c in (Nat.leb 32 n && Nat.ltb n 127)%bool
  | _ => false
  end.

(** [Update], a key while a search is running. *)
Definition key_while_searching (m : remoteBrowserModel) (key : string)
  : option (remoteBrowserModel * Cmd) :=
  if key_in key ["esc"] then
    let m := leave_search m in
    let m := set_loading false m in
    Some (set_cursor 0 m, NoCmd)
  else if key_in key ["up"; "ctrl+p"] then Some (cursor_up m, NoCmd)
  else if key_in key ["down"; "ctrl+n"] then
    Some (cursor_down (len (searchFiles m)) m, NoCmd)
  else Some (m, NoCmd).

(** [Update], a key in search mode. *)
Definition key_in_search (m : remoteBrowserModel) (key : string)
  : option (remoteBrowserModel * Cmd) :=
  if key_in key ["esc"; "ctrl+c"] then
    Some (set_cursor 0 (leave_search m), NoCmd)
  else if key_in key ["enter"] then
    if bool_decide (len (searchFiles m) > 0) &&
       bool_decide (cursor m < len (searchFiles m)) then
      file ← index (searchFiles m) (cursor m);
      if IsDir file then
        let m := leave_search m in
        Some (set_loading true m, loadDirectory (Path file))
      else
        match mode m with
        | BrowseFiles =>
            Some (close_session m, remoteBrowserResultMsg (Path file) true)
        | BrowseDirectories => Some (m, NoCmd)
        end
    else Some (m, NoCmd)
  else if key_in key ["up"; "ctrl+p"] then Some (cursor_up m, NoCmd)
  else if key_in key ["down"; "ctrl+n"] then
    Some (cursor_down (len (searchFiles m)) m, NoCmd)
  else if key_in key ["backspace"] then
    if bool_decide (slen (searchQuery m) > 0) then
      let m := set_searchQuery (drop_last (searchQuery m)) m in
      let m := set_searchTriggered false m in
      if bool_decide (slen (searchQuery m) < 3) then
        let m := set_searchFiles [] m in
        Some (set_pendingSearch "" m, NoCmd)
      else
        let m := if bool_decide (len (searchFiles m) > 0)
                 then filterSearchResults m else m in
        Some (set_pendingSearch "" m, NoCmd)
    else Some (m, NoCmd)
  else
    let char := key in
    if printable char then
      let m := set_searchQuery (searchQuery m ++ char) m in
      let m := set_searchTriggered false m in
      if bool_decide (slen (searchQuery m) >= 3) then
        let m := set_pendingSearch (searchQuery m) m in
        Some (m, scheduleSearch (searchQuery m))
      else Some (m, NoCmd)
    else Some (m, NoCmd).

(** [Update], a key in normal mode. *)
Definition key_in_listing (m : remoteBrowserModel) (key : string)
  : option (remoteBrowserModel * Cmd) :=
  if key_in key ["q"; "ctrl+c"] then
    Some (close_session m, remoteBrowserResultMsg "" false)
  else if key_in key ["esc"] then
    if searchMode m then
      let m := set_searchMode false m in
      let m := set_searchQuery "" m in
      Some (set_searchFiles [] m, NoCmd)
    else Some (close_session m, remoteBrowserResultMsg "" false)
  else if key_in key ["/"] then
    let m := set_searchMode true m in
    let m := set_searchQuery "" m in
    let m := set_searchFiles [] m in
    Some (set_cursor 0 m, NoCmd)
  else if key_in key ["."] then
    let m := set_showHidden (negb (showHidden m)) m in
    let m := filterFiles m in
    Some (clamp_cursor (len (visibleFiles m)) m, NoCmd)
  else if key_in key ["r"; "R"] then
    let m := set_err "" m in
    let m := set_loading true m in
    let m := match session m with
             | NoSession => m
             | _ => set_session NoSession m
             end in
    Some (m, loadDirectory (currentDir m))
  else if key_in key ["enter"] then
    if bool_decide (len (visibleFiles m) = 0) then Some (m, NoCmd)
    else
      file ← index (visibleFiles m) (cursor m);
      if IsDir file then
        Some (set_loading true m, loadDirectory (Path file))
      else
        match mode m with
        | BrowseFiles =>
            Some (close_session m, remoteBrowserResultMsg (Path file) true)
        | BrowseDirectories => Some (m, NoCmd)
        end
  else if key_in key ["s"; " "] then
    match mode m with
    | BrowseDirectories =>
        path ←
          (if searchMode m && bool_decide (len (searchFiles m) > 0) then
             file ← index (searchFiles m) (cursor m);
             Some (if IsDir file then Path file else currentDir m)
           else Some (currentDir m));
        Some (close_session m, remoteBrowserResultMsg path true)
    | BrowseFiles => Some (m, NoCmd)
    end
  else if key_in key ["up"; "k"] then Some (cursor_up m, NoCmd)
  else if key_in key ["down"; "j"] then
    Some (cursor_down (len (visibleFiles m)) m, NoCmd)
  else if key_in key ["home"; "g"] then Some (set_cursor 0 m, NoCmd)
  else if key_in key ["end"; "G"] then
    if bool_decide (len (visibleFiles m) > 0)
    then Some (set_cursor (len (visibleFiles m) - 1) m, NoCmd)
    else Some (m, NoCmd)
  else if key_in key ["backspace"; "h"; "left"] then
    let parent := filepath.Dir (currentDir m) in
    if String.eqb parent (currentDir m) then Some (m, NoCmd)
    else Some (set_loading true m, loadDirectory parent)
  else if key_in key ["~"] then
    Some (set_loading true m, loadDirectory "~")
  else if key_in key ["right"; "l"] then
    if bool_decide (len (visibleFiles m) > 0) then
      file ← index (visibleFiles m) (cursor m);
      if IsDir file
      then Some (set_loading true m, loadDirectory (Path file))
      else Some (m, NoCmd)
    else Some (m, NoCmd)
  else Some (m, NoCmd).

(** [remoteBrowserModel.Update]: the model after the message and the
    command returned; [None] is a run-time panic. *)
Definition Update (m : remoteBrowserModel) (msg : Msg)
  : option (remoteBrowserModel * Cmd) :=
  match msg with
  | remoteBrowserLoadedMsg msg_files msg_dir msg_err =>
      let m := set_loading false m in
      match msg_err with
      | Some e => Some (set_err e m, NoCmd)
      | None =>
          let m := set_files msg_files m in
          let m := set_currentDir msg_dir m in
          let m := set_cursor 0 m in
          let m := set_err "" m in
          let m := set_searchMode false m in
          let m := set_searchQuery "" m in
          let m := set_searchFiles [] m in
          Some (filterFiles m, NoCmd)
      end
  | remoteBrowserSearchMsg msg_files msg_query msg_err =>
      if negb (String.eqb msg_query (searchQuery m)) then Some (m, NoCmd)
      else
        let m := set_loading false m in
        let m := set_searchTriggered true m in
        match msg_err with
        | Some e => Some (set_err e m, NoCmd)
        | None =>
            let m := set_searchFiles msg_files m in
            let m := sortSearchResults m in
            let m := set_cursor 0 m in
            Some (set_err "" m, NoCmd)
        end
  | searchDebounceMsg msg_query =>
      if String.eqb msg_query (searchQuery m) &&
         bool_decide (slen (searchQuery m) >= 3) &&
         negb (searchTriggered m) then
        let m := set_loading true m in
        let m := set_pendingSearch "" m in
        Some (m, runSearch (searchQuery m))
      else Some (m, NoCmd)
  | KeyMsg key =>
      if loading m && searchMode m then key_while_searching m key
      else if loading m then Some (m, NoCmd)
      else if searchMode m then key_in_search m key
      else key_in_listing m key
  | OtherMsg => Some (m, NoCmd)
  end.

(** A run of the event loop: the messages in order, the commands
    returned collected. *)
Fixpoint run (m : remoteBrowserModel) (msgs : list Msg)
  : option (remoteBrowserModel * list Cmd) :=
  match msgs with
  | [] => Some (m, [])
  | msg :: rest =>
      '(m', c) ← Update m msg;
      '(m'', cs) ← run m' rest;
      Some (m'', c :: cs)
  end.

End Browser.

Section Commands.
Context {T : Text} {S : sort.Slicer}.

(** [SFTPSession.GetHomeDirectory]; [None] is an error, whose text the
    caller does not read. *)
Definition GetHomeDirectory (r : Remote) : option string :=
  if helper r then TrimSpace <$> home r else None.

(** The command of [loadDirectory] run: the model, whose session the
    command sets when there was none, and the message it sends ([None]
    when the call panics).  [connect] is what [NewSFTPSession] returns,
    [r] the remote side of the session. *)
Definition loadDirectory_run (connect : error) (r : Remote)
    (m : remoteBrowserModel) (path : string)
  : remoteBrowserModel * option Msg :=
  match session m, connect with
  | NoSession, Some e => (m, Some (remoteBrowserLoadedMsg [] "" (Some e)))
  | s, _ =>
      let m := match s with
               | NoSession => set_session Opened m
               | _ => m
               end in
      let path :=
        if String.eqb path "~" then
          match GetHomeDirectory r with
          | Some home => home
          | None => path
          end
        else path in
      (m,
       match ListDirectory r path with
       | Ok files => Some (remoteBrowserLoadedMsg files path None)
       | Err e => Some (remoteBrowserLoadedMsg [] "" (Some e))
       | Panic => None
       end)
  end.

(** The message the command of [runSearch] sends for the query it has
    captured; [None] when the call panics. *)
Definition runSearch_msg (r : Remote) (m : remoteBrowserModel)
    (query : string) : option Msg :=
  match session m with
  | NoSession => Some (remoteBrowserSearchMsg [] query (Some "no session"))
  | _ =>
      match returned (QuickSearch r query (currentDir m) 30) with
      | Ok files => Some (remoteBrowserSearchMsg files query None)
      | Err e => Some (remoteBrowserSearchMsg [] query (Some e))
      | Panic => None
      end
  end.

End Commands.

End ui.

(** ** Package ui: the quick-transfer wizard *)

Module wizard.
Import transfer.

Inductive UploadType := UploadFile | UploadFolder.

Inductive QuickTransferState :=
| QTStateChooseDirection
| QTStateChooseUploadType
| QTStateChooseDownloadType
| QTStateSelectingLocal
| QTStateSelectingRemote
| QTStateTransferring
| QTStateDone.

Record quickTransferModel := {
  state : QuickTransferState;
  direction : Direction;
  uploadType : UploadType;
  downloadType : UploadType;
  selectedIdx : Z;
  hostName : string;
  configFile : string;
  localPath : string;
  remotePath : string;
  width : Z;
  height : Z;
  err : string;
  historyManager : bool;
  runningTransfer : option RunningTransfer
}.

(** Assignments to the fields that [Update] writes. *)
Definition set_state (v : QuickTransferState) (m : quickTransferModel)
  : quickTransferModel :=
  {| state := v; direction := direction m; uploadType := uploadType m;
     downloadType := downloadType m; selectedIdx := selectedIdx m;
     hostName := hostName m; configFile := configFile m;
     localPath := localPath m; remotePath := remotePath m;
     width := width m; height := height m; err := err m;
     historyManager := historyManager m;
     runningTransfer := runningTransfer m |}.
Definition set_direction (v : Direction) (m : quickTransferModel)
  : quickTransferModel :=
  {| state := state m; direction := v; uploadType := uploadType m;
     downloadType := downloadType m; selectedIdx := selectedIdx m;
     hostName := hostName m; configFile := configFile m;
     localPath := localPath m; remotePath := remotePath m;
     width := width m; height := height m; err := err m;
     historyManager := historyManager m;
     runningTransfer := runningTransfer m |}.
Definition set_uploadType (v : UploadType) (m : quickTransferModel)
  : quickTransferModel :=
  {| state := state m; direction := direction m; uploadType := v;
     downloadType := downloadType m; selectedIdx := selectedIdx m;
     hostName := hostName m; configFile := configFile m;
     localPath := localPath m; remotePath := remotePath m;
     width := width m; height := height m; err := err m;
     historyManager := historyManager m;
     runningTransfer := runningTransfer m |}.
Definition set_downloadType (v : UploadType) (m : quickTransferModel)
  : quickTransferModel :=
  {| state := state m; direction := direction m;
     uploadType := uploadType m; downloadType := v;
     selectedIdx := selectedIdx m; hostName := hostName m;
     configFile := configFile m; localPath := localPath m;
     remotePath := remotePath m; width := width m; height := height m;
     err := err m; historyManager := historyManager m;
     runningTransfer := runningTransfer m |}.
Definition set_selectedIdx (v : Z) (m : quickTransferModel)
  : quickTransferModel :=
  {| state := state m; direction := direction m;
     uploadType := uploadType m; downloadType := downloadType m;
     selectedIdx := v; hostName := hostName m; configFile := configFile m;
     localPath := localPath m; remotePath := remotePath m;
     width := width m; height := height m; err := err m;
     historyManager := historyManager m;
     runningTransfer := runningTransfer m |}.
Definition set_localPath (v : string) (m : quickTransferModel)
  : quickTransferModel :=
  {| state := state m; direction := direction m;
     uploadType := uploadType m; downloadType := downloadType m;
     selectedIdx := selectedIdx m; hostName := hostName m;
     configFile := configFile m; localPath := v;
     remotePath := remotePath m; width := width m; height := height m;
     err := err m; historyManager := historyManager m;
     runningTransfer := runningTransfer m |}.
Definition set_remotePath (v : string) (m : quickTransferModel)
  : quickTransferModel :=
  {| state := state m; direction := direction m;
     uploadType := uploadType m; downloadType := downloadType m;
     selectedIdx := selectedIdx m; hostName := hostName m;
     configFile := configFile m; localPath := localPath m; remotePath := v;
     width := width m; height := height m; err := err m;
     historyManager := historyManager m;
     runningTransfer := runningTransfer m |}.
Definition set_err (v : string) (m : quickTransferModel)
  : quickTransferModel :=
  {| state := state m; direction := direction m;
     uploadType := uploadType m; downloadType := downloadType m;
     selectedIdx := selectedIdx m; hostName := hostName m;
     configFile := configFile m; localPath := localPath m;
     remotePath := remotePath m; width := width m; height := height m;
     err := v; historyManager := historyManager m;
     runningTransfer := runningTransfer m |}.
Definition set_runningTransfer (v : option RunningTransfer) (m : quickTransferModel)
  : quickTransferModel :=
  {| state := state m; direction := direction m;
     uploadType := uploadType m; downloadType := downloadType m;
     selectedIdx := selectedIdx m; hostName := hostName m;
     configFile := configFile m; localPath := localPath m;
     remotePath := remotePath m; width := width m; height := height m;
     err := err m; historyManager := historyManager m;
     runningTransfer := v |}.

(** [tea.KeyMsg]: its [Type] as far as [Update] tests it, and
    [String()]. *)
Inductive KeyType := KeyCtrlC | KeyEsc | KeyRunes.

Inductive Msg :=
| quickLocalPickedMsg (path : string) (selected : bool)
| quickRemotePickedMsg (path : string) (selected : bool)
| quickTransferDoneMsg (success : bool) (err : error)
| KeyMsg (type : KeyType) (key : string)
| OtherMsg.

Inductive PickerMode := PickFile | PickDirectory.

(** The commands [Update] returns, by what they will do. *)
Inductive Cmd :=
| NoCmd
| quickTransferCancelMsg
| openLocalPicker (mode : PickerMode) (title : string)
| openRemoteBrowserMsg (host startPath configFile : string)
    (mode : ui.BrowserMode)
| awaitTransfer (req : TransferRequest). (* <-m.runningTransfer.Done() *)

(** What the wizard reads from the machine it runs on: [os.Stat(path)]
    ([None] an error, [Some d] with [d] the [IsDir()] of the info) and
    what [cmd.Start()] returns. *)
Record Local := {
  Stat : string -> option bool;
  Start : error
}.

Definition is_dir (w : Local) (path : string) : bool :=
  match Stat w path with
  | Some d => d
  | None => false
  end.

Definition local_picker (m : quickTransferModel) : Cmd :=
  match direction m with
  | Upload =>
      match uploadType m with
      | UploadFolder => openLocalPicker PickDirectory "Select folder to upload"
      | UploadFile => openLocalPicker PickFile "Select file to upload"
      end
  | Download => openLocalPicker PickDirectory "Select download destination"
  end.

Definition remote_picker (m : quickTransferModel) : Cmd :=
  let mode :=
    match direction m with
    | Upload => ui.BrowseDirectories
    | Download =>
        match downloadType m with
        | UploadFolder => ui.BrowseDirectories
        | UploadFile => ui.BrowseFiles
        end
    end in
  openRemoteBrowserMsg (hostName m) "~" (configFile m) mode.

(** The request [executeTransfer] builds. *)
Definition transfer_request (w : Local) (m : quickTransferModel)
  : TransferRequest :=
  let localPath := localPath m in
  let recursive := false in
  let '(localPath, recursive) :=
    match direction m with
    | Upload =>
        (localPath, if is_dir w localPath then true else recursive)
    | Download =>
        let localPath :=
          if is_dir w localPath then
            let remoteFilename := filepath.Base (remotePath m) in
            filepath.Join [localPath; remoteFilename]
          else localPath in
        (localPath,
         match downloadType m with
         | UploadFolder => true
         | UploadFile => recursive
         end)
    end in
  {| Host := hostName m; Direction_ := direction m; LocalPath := localPath;
     RemotePath := remotePath m; Recursive := recursive;
     ConfigFile := configFile m |}.

(** [executeTransfer]: the transfer is started at once and the command
    returned waits for its result. *)
Definition executeTransfer (w : Local) (m : quickTransferModel)
  : quickTransferModel * Cmd :=
  let req := transfer_request w m in
  (set_runningTransfer (Some (StartTransfer (Start w))) m, awaitTransfer req).

Definition key_in (key : string) (keys : list string) : bool :=
  existsb (String.eqb key) keys.

(** The two-button choice shared by the three choosing states. *)
Definition move_choice (m : quickTransferModel) (key : string)
  : option quickTransferModel :=
  if key_in key ["left"; "h"; "up"; "k"] then Some (set_selectedIdx 0 m)
  else if key_in key ["right"; "l"; "down"; "j"] then Some (set_selectedIdx 1 m)
  else if key_in key ["tab"] then
    Some (set_selectedIdx (Z.rem (selectedIdx m + 1) 2) m)
  else None.

Definition choose_direction (d : Direction) (m : quickTransferModel)
  : quickTransferModel :=
  let m := set_direction d m in
  let m := set_selectedIdx 0 m in
  set_state
    match d with
    | Upload => QTStateChooseUploadType
    | Download => QTStateChooseDownloadType
    end m.

Definition choose_upload (t : UploadType) (m : quickTransferModel)
  : quickTransferModel * Cmd :=
  let m := set_uploadType t m in
  let m := set_state QTStateSelectingLocal m in
  (m, local_picker m).

Definition choose_download (t : UploadType) (m : quickTransferModel)
  : quickTransferModel * Cmd :=
  let m := set_downloadType t m in
  let m := set_state QTStateSelectingRemote m in
  (m, remote_picker m).

Definition back_to_direction (idx : Z) (m : quickTransferModel)
  : quickTransferModel :=
  set_selectedIdx idx (set_state QTStateChooseDirection m).

(** [Update], a key that is not ctrl+c. *)
Definition key_in_state (m : quickTransferModel) (type : KeyType) (key : string)
  : quickTransferModel * Cmd :=
  match state m with
  | QTStateChooseDirection =>
      match type with
      | KeyEsc => (m, quickTransferCancelMsg)
      | _ =>
          if key_in key ["u"; "U"; "1"] then (choose_direction Upload m, NoCmd)
          else if key_in key ["d"; "D"; "2"] then
            (choose_direction Download m, NoCmd)
          else match move_choice m key with
          | Some m' => (m', NoCmd)
          | None =>
              if key_in key ["enter"; " "] then
                if bool_decide (selectedIdx m = 0)
                then (choose_direction Upload m, NoCmd)
                else (choose_direction Download m, NoCmd)
              else if key_in key ["q"] then (m, quickTransferCancelMsg)
              else (m, NoCmd)
          end
      end
  | QTStateChooseUploadType =>
      match type with
      | KeyEsc => (back_to_direction 0 m, NoCmd)
      | _ =>
          if key_in key ["f"; "F"; "1"] then choose_upload UploadFile m
          else if key_in key ["d"; "D"; "2"] then choose_upload UploadFolder m
          else match move_choice m key with
          | Some m' => (m', NoCmd)
          | None =>
              if key_in key ["enter"; " "] then
                if bool_decide (selectedIdx m = 0)
                then choose_upload UploadFile m
                else choose_upload UploadFolder m
              else if key_in key ["q"] then (back_to_direction 0 m, NoCmd)
              else (m, NoCmd)
          end
      end
  | QTStateChooseDownloadType =>
      match type with
      | KeyEsc => (back_to_direction 1 m, NoCmd)
      | _ =>
          if key_in key ["f"; "F"; "1"] then choose_download UploadFile m
          else if key_in key ["d"; "D"; "2"] then choose_download UploadFolder m
          else match move_choice m key with
          | Some m' => (m', NoCmd)
          | None =>
              if key_in key ["enter"; " "] then
                if bool_decide (selectedIdx m = 0)
                then choose_download UploadFile m
                else choose_download UploadFolder m
              else if key_in key ["q"] then (back_to_direction 1 m, NoCmd)
              else (m, NoCmd)
          end
      end
  | QTStateSelectingLocal | QTStateSelectingRemote =>
      match type with
      | KeyEsc => (m, quickTransferCancelMsg)
      | _ => if String.eqb key "q" then (m, quickTransferCancelMsg)
             else (m, NoCmd)
      end
  | QTStateTransferring => (m, NoCmd)
  | QTStateDone => (m, quickTransferCancelMsg)
  end.

(** [quickTransferModel.Update]. *)
Definition Update (w : Local) (m : quickTransferModel) (msg : Msg)
  : quickTransferModel * Cmd :=
  match msg with
  | quickLocalPickedMsg path selected =>
      if negb selected then (m, quickTransferCancelMsg)
      else
        let m := set_localPath path m in
        match direction m with
        | Download => executeTransfer w (set_state QTStateTransferring m)
        | Upload =>
            let m := set_state QTStateSelectingRemote m in
            (m, remote_picker m)
        end
  | quickRemotePickedMsg path selected =>
      if negb selected then (m, quickTransferCancelMsg)
      else
        let m := set_remotePath path m in
        match direction m with
        | Download =>
            let m := set_state QTStateSelectingLocal m in
            (m, local_picker m)
        | Upload => executeTransfer w (set_state QTStateTransferring m)
        end
  | quickTransferDoneMsg success err =>
      match err with
      | Some e => (set_state QTStateDone (set_err e m), NoCmd)
      | None => (set_state QTStateDone m, quickTransferCancelMsg)
      end
  | KeyMsg KeyCtrlC key =>
      (set_runningTransfer (Cancel <$> runningTransfer m) m,
       quickTransferCancelMsg)
  | KeyMsg type key => key_in_state m type key
  | OtherMsg => (m, NoCmd)
  end.

(** [NewQuickTransfer]; [history] tells whether the history manager
    could be made. *)
Definition NewQuickTransfer (hostName : string) (width height : Z)
    (configFile : string) (history : bool) : quickTransferModel :=
  {| state := QTStateChooseDirection; direction := Upload;
     uploadType := UploadFile; downloadType := UploadFile;
     selectedIdx := 0; hostName := hostName; configFile := configFile;
     localPath := ""; remotePath := ""; width := width; height := height;
     err := ""; historyManager := history; runningTransfer := None |}.

End wizard.

(** * Vocabulary of the specification *)

(** ** Package ui: the application around the wizard and the browser *)

Module app.
Import transfer.

(** The views that concern the quick transfer. *)
Inductive ViewMode := ViewList | ViewQuickTransfer | ViewRemoteBrowser.

(** The fields of [Model] that the quick transfer and the remote browser
    read and write: of the list view, the two modes that the key [t]
    tests and the host name of the selected row of the table, when there
    is a row. *)
Record Model := {
  searchMode : bool;
  deleteMode : bool;
  selectedRow : option string;
  configFile : string;
  viewMode : ViewMode;
  quickTransferForm : option wizard.quickTransferModel;
  remoteBrowserForm : option ui.remoteBrowserModel;
  width : Z;
  height : Z
}.

Definition set_viewMode (v : ViewMode) (m : Model) : Model :=
  {| searchMode := searchMode m; deleteMode := deleteMode m;
     selectedRow := selectedRow m; configFile := configFile m;
     viewMode := v; quickTransferForm := quickTransferForm m;
     remoteBrowserForm := remoteBrowserForm m;
     width := width m; height := height m |}.
Definition set_quickTransferForm (v : option wizard.quickTransferModel)
    (m : Model) : Model :=
  {| searchMode := searchMode m; deleteMode := deleteMode m;
     selectedRow := selectedRow m; configFile := configFile m;
     viewMode := viewMode m; quickTransferForm := v;
     remoteBrowserForm := remoteBrowserForm m;
     width := width m; height := height m |}.
Definition set_remoteBrowserForm (v : option ui.remoteBrowserModel)
    (m : Model) : Model :=
  {| searchMode := searchMode m; deleteMode := deleteMode m;
     selectedRow := selectedRow m; configFile := configFile m;
     viewMode := viewMode m; quickTransferForm := quickTransferForm m;
     remoteBrowserForm := v;
     width := width m; height := height m |}.

(** The messages of the quick transfer and of the remote browser, and
    the keys. *)
Inductive Msg :=
| KeyMsg (type : wizard.KeyType) (key : string)
| quickTransferCancelMsg
| quickLocalPickedMsg (path : string) (selected : bool)
| quickRemotePickedMsg (path : string) (selected : bool)
| quickTransferDoneMsg (success : bool) (err : error)
| openRemoteBrowserMsg (host startPath configFile : string)
    (mode : ui.BrowserMode)
| remoteBrowserResultMsg (path : string) (selected : bool)
| remoteBrowserLoadedMsg (files : list RemoteFile) (dir : string) (err : error)
| remoteBrowserSearchMsg (files : list RemoteFile) (query : string)
    (err : error)
| searchDebounceMsg (query : string).

(** The command [Update] returns: nil, or the command of the form the
    message went to. *)
Inductive Cmd :=
| NoCmd
| quickCmd (c : wizard.Cmd)
| browserCmd (c : ui.Cmd).

Section App.
Context {T : Text}.

(** What the application reads from the machine it runs on: what the
    wizard reads, and whether [history.NewHistoryManager] succeeds. *)
Variable w : wizard.Local.
Variable history : bool.

(** The async messages of the quick transfer go to the wizard when it
    is the view. *)
Definition route_quick (m : Model) (msg : wizard.Msg) : option (Model * Cmd) :=
  match viewMode m, quickTransferForm m with
  | ViewQuickTransfer, Some form =>
      let '(newForm, cmd) := wizard.Update w form msg in
      Some (set_quickTransferForm (Some newForm) m, quickCmd cmd)
  | _, _ => Some (m, NoCmd)
  end.

(** The async messages of the remote browser go to the browser when it
    is the view. *)
Definition route_browser (m : Model) (msg : ui.Msg) : option (Model * Cmd) :=
  match viewMode m, remoteBrowserForm m with
  | ViewRemoteBrowser, Some form =>
      '(newForm, cmd) ← ui.Update form msg;
      Some (set_remoteBrowserForm (Some newForm) m, browserCmd cmd)
  | _, _ => Some (m, NoCmd)
  end.

(** [handleListViewKeys], the key [t]; [None] for what the table and
    the other views do with the key, which is not followed here. *)
Definition handleListViewKeys (m : Model) (key : string)
  : option (Model * Cmd) :=
  if String.eqb key "t" then
    if negb (searchMode m) && negb (deleteMode m) then
      match selectedRow m with
      | Some hostName =>
          let m :=
            set_quickTransferForm
              (Some (wizard.NewQuickTransfer hostName (width m) (height m)
                       (configFile m) history)) m in
          Some (set_viewMode ViewQuickTransfer m, NoCmd)
      | None => None
      end
    else None
  else None.

(** [Model.Update] on the messages above; [None] is a run-time panic of
    the browser, or a key of the list view that is not followed here. *)
Definition Update (m : Model) (msg : Msg) : option (Model * Cmd) :=
  match msg with
  | quickTransferCancelMsg =>
      let m := set_viewMode ViewList m in
      Some (set_quickTransferForm None m, NoCmd)
  | quickLocalPickedMsg path selected =>
      route_quick m (wizard.quickLocalPickedMsg path selected)
  | quickRemotePickedMsg path selected =>
      route_quick m (wizard.quickRemotePickedMsg path selected)
  | quickTransferDoneMsg success err =>
      route_quick m (wizard.quickTransferDoneMsg success err)
  | openRemoteBrowserMsg host startPath configFile mode =>
      let form :=
        ui.NewRemoteBrowser host startPath configFile mode (width m)
          (height m) in
      let m := set_remoteBrowserForm (Some form) m in
      let m := set_viewMode ViewRemoteBrowser m in
      Some (m, browserCmd (ui.Init form))
  | remoteBrowserResultMsg path selected =>
      let m := set_remoteBrowserForm None m in
      let m := set_viewMode ViewQuickTransfer m in
      match quickTransferForm m with
      | Some form =>
          let '(newForm, cmd) :=
            wizard.Update w form (wizard.quickRemotePickedMsg path selected) in
          Some (set_quickTransferForm (Some newForm) m, quickCmd cmd)
      | None => Some (m, NoCmd)
      end
  | remoteBrowserLoadedMsg files dir err =>
      route_browser m (ui.remoteBrowserLoadedMsg files dir err)
  | remoteBrowserSearchMsg files query err =>
      route_browser m (ui.remoteBrowserSearchMsg files query err)
  | searchDebounceMsg query =>
      route_browser m (ui.searchDebounceMsg query)
  | KeyMsg type key =>
      match viewMode m with
      | ViewQuickTransfer =>
          match quickTransferForm m with
          | Some form =>
              let '(newForm, cmd) :=
                wizard.Update w form (wizard.KeyMsg type key) in
              Some (set_quickTransferForm (Some newForm) m, quickCmd cmd)
          | None => Some (m, NoCmd)
          end
      | ViewRemoteBrowser =>
          match remoteBrowserForm m with
          | Some form =>
              '(newForm, cmd) ← ui.Update form (ui.KeyMsg key);
              Some (set_remoteBrowserForm (Some newForm) m, browserCmd cmd)
          | None => Some (m, NoCmd)
          end
      | ViewList => handleListViewKeys m key
      end
  end.

End App.

End app.

Module spec.
Import transfer.

(** The string with only the characters that [keep] accepts. *)
Fixpoint filter_string (keep : ascii -> bool) (s : string) : string :=
  match s with
  | EmptyString => EmptyString
  | String c s' =>
      if keep c then String c (filter_string keep s')
      else filter_string keep s'
  end.

(** The seven shell metacharacters: the single and the double quote, the
    semicolon, the bar, the ampersand, the dollar and the backtick. *)
Definition metacharacters : list ascii :=
  ["'"; dquote; ";"; "|"; "&"; "$"; "`"]%char.

Definition is_meta (c : ascii) : bool :=
  existsb (Ascii.eqb c) metacharacters.

(** The characters of a string. *)
Definition chars (s : string) : list ascii := list_ascii_of_string s.

(** What the browser shows of its state: the entries, the current
    directory, the cursor and the error text. *)
Definition visible (m : ui.remoteBrowserModel) :=
  (ui.files m, ui.visibleFiles m, ui.searchFiles m, ui.currentDir m,
   ui.cursor m, ui.err m).

(** Whether a message can be the one a command sends.  The messages
    that carry what a remote command, a dialog or a transfer gave are
    matched by their kind, and by the query for a search; the others by
    their content. *)
Definition answers (c : app.Cmd) (msg : app.Msg) : bool :=
  match c, msg with
  | app.quickCmd wizard.quickTransferCancelMsg, app.quickTransferCancelMsg =>
      true
  | app.quickCmd (wizard.openLocalPicker _ _), app.quickLocalPickedMsg _ _ =>
      true
  | app.quickCmd (wizard.awaitTransfer _), app.quickTransferDoneMsg _ _ =>
      true
  | app.quickCmd (wizard.openRemoteBrowserMsg host startPath configFile mode),
    app.openRemoteBrowserMsg host' startPath' configFile' mode' =>
      String.eqb host host' && String.eqb startPath startPath' &&
      String.eqb configFile configFile' &&
      match mode, mode' with
      | ui.BrowseFiles, ui.BrowseFiles
      | ui.BrowseDirectories, ui.BrowseDirectories => true
      | _, _ => false
      end
  | app.browserCmd (ui.remoteBrowserResultMsg path selected),
    app.remoteBrowserResultMsg path' selected' =>
      String.eqb path path' && Bool.eqb selected selected'
  | app.browserCmd (ui.loadDirectory _), app.remoteBrowserLoadedMsg _ _ _ =>
      true
  | app.browserCmd (ui.runSearch query), app.remoteBrowserSearchMsg _ query' _ =>
      String.eqb query query'
  | app.browserCmd (ui.scheduleSearch query), app.searchDebounceMsg query' =>
      String.eqb query query'
  | _, _ => false
  end.

(** The commands still running once the first of them that can send
    [msg] has sent it; [None] when none can. *)
Fixpoint answer (pending : list app.Cmd) (msg : app.Msg)
  : option (list app.Cmd) :=
  match pending with
  | [] => None
  | c :: rest =>
      if answers c msg then Some rest
      else rest' ← answer rest msg; Some (c :: rest')
  end.

(** A command that sends nothing. *)
Definition idle (c : app.Cmd) : bool :=
  match c with
  | app.NoCmd | app.quickCmd wizard.NoCmd | app.browserCmd ui.NoCmd => true
  | _ => false
  end.

(** A run of the application in which nothing comes from nowhere: every
    message is a key, or is sent by a command that an earlier [Update]
    returned and that has not sent its message yet.  The commands run
    side by side, so their messages and the keys come in any order.  The
    run gives the model it ends in and the commands still running, oldest
    first.  The session that a command of the browser opens as it runs
    is not followed: [Update] reads the session only to close it. *)
Fixpoint driven {T : Text} (w : wizard.Local) (history : bool)
    (m : app.Model) (pending : list app.Cmd) (msgs : list app.Msg)
  : option (app.Model * list app.Cmd) :=
  match msgs with
  | [] => Some (m, pending)
  | msg :: rest =>
      pending ←
        match msg with
        | app.KeyMsg _ _ => Some pending
        | _ => answer pending msg
        end;
      '(m', c) ← app.Update w history m msg;
      driven w history m' (pending ++ if idle c then [] else [c])%list rest
  end.

(** The list under the cursor: the search results in search mode, the
    visible files otherwise. *)
Definition displayed (m : ui.remoteBrowserModel) : list RemoteFile :=
  if ui.searchMode m then ui.searchFiles m else ui.visibleFiles m.

(** The cursor is an index of the displayed list, and 0 when the list is
    empty. *)
Definition cursor_in_bounds (m : ui.remoteBrowserModel) : Prop :=
  0 <= ui.cursor m /\
  (displayed m <> [] -> ui.cursor m < len (displayed m)) /\
  (displayed m = [] -> ui.cursor m = 0).

(** The class of a search result for the lowered query: 0 when its
    lowered name is the query, 1 when it only starts with it, 2 when it
    only contains it, 3 otherwise. *)
Definition rank {T : Text} (query : string) (f : RemoteFile) : nat :=
  let name := ToLower (Name f) in
  if String.eqb name query then 0%nat
  else if strings.HasPrefix name query then 1%nat
  else if strings.Contains name query then 2%nat
  else 3%nat.

(** One element is placed before another. *)
Definition before {A} (l : list A) (a b : A) : Prop :=
  exists i j : nat, (i < j)%nat /\ l !! i = Some a /\ l !! j = Some b.

(** Case-insensitive name order. *)
Definition name_le {T : Text} (a b : RemoteFile) : Prop :=
  String.leb (ToLower (Name a)) (ToLower (Name b)) = true.

(** The order the comparison of the search results stands for: first the
    class, then the length of the path. *)
Definition ranked_before {T : Text} (query : string) (a b : RemoteFile)
  : Prop :=
  (rank query a < rank query b)%nat \/
  (rank query a = rank query b /\ slen (Path a) < slen (Path b)).

(** The part of a listing an entry belongs to: 0 for the parent entry,
    1 for a directory, 2 for a file. *)
Definition part (f : RemoteFile) : nat :=
  if String.eqb (Name f) ".." then 0%nat
  else if IsDir f then 1%nat else 2%nat.

Definition in_part (n : nat) (f : RemoteFile) : bool := Nat.eqb (part f) n.






End spec.

(** * Sample data *)

Module samples.
Import transfer.

Definition file (name path : string) (dir : bool) : RemoteFile :=
  {| Name := name; Path := path; IsDir := dir; Size := 0 |}.

(** A remote side on which every command exits with an error. *)
Definition failing_remote : Remote :=
  {| session := None; helper := true; home := None;
     Output := fun _ => ("", Some "Process exited with status 1") |}.

(** A remote side whose connection is lost: no session can be opened. *)
Definition lost_remote : Remote :=
  {| session := Some "EOF"; helper := false; home := None;
     Output := fun _ => ("", Some "EOF") |}.

(** A remote side that answers the listing of /srv and nothing else. *)
Definition srv_listing : string :=
  String.concat (String "010" "")
    ["-rw-r--r--  1 root root   120 Jan  1 12:00 notes.txt";
     "drwxr-xr-x  2 root root  4096 Jan  1 12:00 www";
     "drwxr-xr-x  2 root root  4096 Jan  1 12:00 Backup";
     "-rw-r--r--  1 root root    12 Jan  1 12:00 .env";
     ""].

Definition srv_remote : Remote :=
  {| session := None; helper := true; home := Some "/root";
     Output := fun cmd =>
       if String.eqb cmd
            ("ls -la " ++ asciitext.Sprintf_q "/srv" ++ " 2>/dev/null | tail -n +2")
       then (srv_listing, None)
       else ("", Some "Process exited with status 1") |}.

(** The browser as the wizard opens it. *)
Definition browser0 : ui.remoteBrowserModel :=
  ui.NewRemoteBrowser "myhost" "~" "" ui.BrowseFiles 80 24.

Definition home_files : list RemoteFile :=
  [file ".." "/home" true; file "notes.txt" "/home/u/notes.txt" false].

Definition log_results : list RemoteFile :=
  [file "log" "/home/u/log" false;
   file "logo.png" "/home/u/logo.png" false;
   file "logs" "/home/u/srv/var/logs" true;
   file "app.log" "/home/u/app.log" false].

(** A download into the existing directory ./downloads/. *)
Definition downloads : wizard.Local :=
  {| wizard.Stat := fun p => if String.eqb p "./downloads/" then Some true else None;
     wizard.Start := None |}.

Definition download_app_log : wizard.quickTransferModel :=
  wizard.set_remotePath "/var/log/app.log"
    (wizard.set_localPath "./downloads/"
       (wizard.set_direction Download
          (wizard.NewQuickTransfer "myhost" 80 24 "" true))).

(** Eleven transfers for one host, oldest first. *)
Definition eleven : list history.Call :=
  List.map
    (fun n => {| history.c_now := Z.of_nat n; history.c_host := "myhost";
                 history.c_direction := "upload";
                 history.c_local := "./site";
                 history.c_remote := "/var/www/" |})
    (seq 1 11).

(** What [ListDirectory] returns for /srv on [srv_remote]. *)
Definition srv_entries : list RemoteFile :=
  [ {| Name := ".."; Path := "/"; IsDir := true; Size := 0 |};
    {| Name := "Backup"; Path := "/srv/Backup"; IsDir := true; Size := 4096 |};
    {| Name := "www"; Path := "/srv/www"; IsDir := true; Size := 4096 |};
    {| Name := ".env"; Path := "/srv/.env"; IsDir := false; Size := 12 |};
    {| Name := "notes.txt"; Path := "/srv/notes.txt"; IsDir := false;
       Size := 120 |} ].

(** A session of the browser: the first listing arrives, the user types
    the query log in search mode, the search runs and answers, the user
    goes down to the directory among the results and opens it, and the
    listing of that directory fails. *)
Definition search_then_failed_load : list ui.Msg :=
  [ui.remoteBrowserLoadedMsg home_files "/home/u" None;
   ui.KeyMsg "/"; ui.KeyMsg "l"; ui.KeyMsg "o"; ui.KeyMsg "g";
   ui.searchDebounceMsg "log";
   ui.remoteBrowserSearchMsg log_results "log" None;
   ui.KeyMsg "down"; ui.KeyMsg "down"; ui.KeyMsg "enter";
   ui.remoteBrowserLoadedMsg [] "" (Some "failed to create session: EOF")].

(** A session in which the user deletes a character of the query with
    the cursor on the second result. *)
Definition search_then_backspace : list ui.Msg :=
  [ui.remoteBrowserLoadedMsg home_files "/home/u" None;
   ui.KeyMsg "/"; ui.KeyMsg "l"; ui.KeyMsg "o"; ui.KeyMsg "g";
   ui.searchDebounceMsg "log";
   ui.remoteBrowserSearchMsg log_results "log" None;
   ui.KeyMsg "down"; ui.KeyMsg "backspace"].

(** A browser that shows /home/u. *)
Definition browser_home : ui.remoteBrowserModel :=
  ui.set_loading false
    (ui.set_visibleFiles home_files
       (ui.set_files home_files (ui.set_currentDir "/home/u" browser0))).

(** A remote side on which the two search commands exit with an error
    and every other command succeeds. *)
Definition find_failing_remote : Remote :=
  {| session := None; helper := true; home := Some "/home/u";
     Output := fun cmd =>
       if strings.Contains cmd "find "
       then ("", Some "Process exited with status 1")
       else ("ok", None) |}.

(** A browser with a session that shows /home/u in search mode, with the
    query log and an error text left by an earlier search. *)
Definition browser_searching : ui.remoteBrowserModel :=
  ui.set_err "Process exited with status 255"
    (ui.set_searchQuery "log"
       (ui.set_searchMode true
          (ui.set_session ui.Opened
             (ui.set_loading true
                (ui.set_visibleFiles home_files
                   (ui.set_files home_files
                      (ui.set_currentDir "/home/u" browser0))))))).

(** A remote side that answers the listing of the root, asked for as /
    or as /. *)
Definition root_listing : string :=
  String.concat (String "010" "")
    ["drwxr-xr-x  2 root root  4096 Jan  1 12:00 etc";
     "drwxr-xr-x  2 root root  4096 Jan  1 12:00 home";
     ""].

Definition root_remote : Remote :=
  {| session := None; helper := true; home := Some "/root";
     Output := fun cmd =>
       if String.eqb cmd
            ("ls -la " ++ asciitext.Sprintf_q "/" ++ " 2>/dev/null | tail -n +2")
          || String.eqb cmd
            ("ls -la " ++ asciitext.Sprintf_q "/." ++ " 2>/dev/null | tail -n +2")
       then (root_listing, None)
       else ("", Some "Process exited with status 1") |}.

(** What [ListDirectory] returns for the root on [root_remote], asked
    for as / and as /. *)
Definition root_entries : list RemoteFile :=
  [ {| Name := "etc"; Path := "/etc"; IsDir := true; Size := 4096 |};
    {| Name := "home"; Path := "/home"; IsDir := true; Size := 4096 |} ].

Definition root_entries_with_parent : list RemoteFile :=
  {| Name := ".."; Path := "/"; IsDir := true; Size := 0 |} :: root_entries.

(** A remote side with the home directory /home/u, which holds a
    directory docs and a file, and docs a file. *)
Definition u_home_listing : string :=
  String.concat (String "010" "")
    ["drwxr-xr-x  2 u u  4096 Jan  1 12:00 docs";
     "-rw-r--r--  1 u u   120 Jan  1 12:00 notes.txt";
     ""].

Definition u_docs_listing : string :=
  String.concat (String "010" "")
    ["-rw-r--r--  1 u u  2048 Jan  1 12:00 report.pdf";
     ""].

Definition u_remote : Remote :=
  {| session := None; helper := true; home := Some "/home/u";
     Output := fun cmd =>
       if String.eqb cmd
            ("ls -la " ++ asciitext.Sprintf_q "/home/u" ++
             " 2>/dev/null | tail -n +2")
       then (u_home_listing, None)
       else if String.eqb cmd
            ("ls -la " ++ asciitext.Sprintf_q "/home/u/docs" ++
             " 2>/dev/null | tail -n +2")
       then (u_docs_listing, None)
       else ("", Some "Process exited with status 1") |}.

(** What [ListDirectory] returns on [u_remote] for the two
    directories. *)
Definition u_home_entries : list RemoteFile :=
  [ {| Name := ".."; Path := "/home"; IsDir := true; Size := 0 |};
    {| Name := "docs"; Path := "/home/u/docs"; IsDir := true; Size := 4096 |};
    {| Name := "notes.txt"; Path := "/home/u/notes.txt"; IsDir := false;
       Size := 120 |} ].

Definition u_docs_entries : list RemoteFile :=
  [ {| Name := ".."; Path := "/home/u"; IsDir := true; Size := 0 |};
    {| Name := "report.pdf"; Path := "/home/u/docs/report.pdf";
       IsDir := false; Size := 2048 |} ].

(** The application on its list of hosts, with the row of myhost
    selected. *)
Definition app0 : app.Model :=
  {| app.searchMode := false; app.deleteMode := false;
     app.selectedRow := Some "myhost"; app.configFile := "";
     app.viewMode := app.ViewList; app.quickTransferForm := None;
     app.remoteBrowserForm := None; app.width := 80; app.height := 24 |}.

Definition key (k : string) : app.Msg := app.KeyMsg wizard.KeyRunes k.

(** A quick download: the wizard opens the browser on the home
    directory, the user goes into docs, chooses the file there with
    enter and has typed r, for a refresh, before the choice has come
    back to the application. *)
Definition refresh_after_choice : list app.Msg :=
  [key "t"; key "d"; key "f";
   app.openRemoteBrowserMsg "myhost" "~" "" ui.BrowseFiles;
   app.remoteBrowserLoadedMsg u_home_entries "/home/u" None;
   key "down"; key "enter";
   app.remoteBrowserLoadedMsg u_docs_entries "/home/u/docs" None;
   key "down"; key "enter"; key "r"].

(** The choice comes back and the wizard asks for the local directory;
    the user leaves the wizard with esc, starts a quick download again
    and the wizard opens a browser on the home directory. *)
Definition open_again : list app.Msg :=
  [app.remoteBrowserResultMsg "/home/u/docs/report.pdf" true;
   app.KeyMsg wizard.KeyEsc "esc";
   app.quickTransferCancelMsg;
   key "t"; key "d"; key "f";
   app.openRemoteBrowserMsg "myhost" "~" "" ui.BrowseFiles].

(** The listing the refresh of the first browser asked for. *)
Definition late_listing : app.Msg :=
  app.remoteBrowserLoadedMsg u_docs_entries "/home/u/docs" None.

End samples.

(** * Properties *)

(** ** The history store *)

Section HistoryFacts.
Import history.

Lemma take_app_take {A} (n : nat) (l k : list A) :
  take n (l ++ take n k) = take n (l ++ k).
Proof.
  rewrite !take_app, take_take. f_equal. f_equal. lia.
Qed.

Lemma truncate_is_take (h : list TransferHistoryEntry) :
  (if bool_decide (len h > 10) then take 10 h else h) = take 10 h.
Proof.
  unfold len. case_bool_decide as Hlen; [done|].
  symmetry. apply take_ge. lia.
Qed.

Lemma history_after_record (h : string) (conns : Connections) (c : Call) :
  GetTransferHistory h (record conns c) =
  if String.eqb (c_host c) h
  then take 10 (entry_of c :: GetTransferHistory h conns)
  else GetTransferHistory h conns.
Proof.
  unfold record, RecordTransfer, GetTransferHistory.
  destruct (String.eqb_spec (c_host c) h) as [->|Hne].
  - destruct (conns !! h) as [conn|] eqn:Hconn.
    + rewrite lookup_insert_eq. cbn [TransferHistory].
      apply truncate_is_take.
    + rewrite lookup_insert_eq. reflexivity.
  - destruct (conns !! c_host c) as [conn|];
      rewrite lookup_insert_ne by done; reflexivity.
Qed.

Lemma history_after_calls (h : string) (calls : list Call) :
  forall conns : Connections,
  GetTransferHistory h (record_all calls conns) =
  match entries_for h calls with
  | [] => GetTransferHistory h conns
  | _ => take 10 (List.rev (entries_for h calls) ++ GetTransferHistory h conns)
  end.
Proof.
  induction calls as [|c calls IH]; intros conns; [reflexivity|].
  unfold record_all in *. cbn [List.fold_left].
  rewrite IH, history_after_record.
  unfold entries_for. cbn [List.filter].
  destruct (String.eqb (c_host c) h); cbn [List.map]; [|reflexivity].
  fold (entries_for h calls).
  destruct (entries_for h calls) as [|e es]; [reflexivity|].
  rewrite take_app_take. cbn [List.rev].
  rewrite <- !app_assoc. reflexivity.
Qed.

(** C4. [RecordTransfer] puts the new entry in front of the host's
    transfer history and cuts the history to 10 entries; after any
    sequence of calls the history of a host is the newest first list of
    the entries recorded for it, followed by what was stored before, cut
    to 10; it never holds more than 10 entries once a transfer has been
    recorded, and on a host without history the 10 latest of 11 or more
    transfers remain, newest first. *)
Theorem C4_history_prepends_and_truncates :
  (forall (conns : Connections) (c : Call),
     GetTransferHistory (c_host c) (record conns c) =
     take 10 (entry_of c :: GetTransferHistory (c_host c) conns)) /\
  (forall (h : string) (calls : list Call) (conns : Connections),
     GetTransferHistory h (record_all calls conns) =
     match entries_for h calls with
     | [] => GetTransferHistory h conns
     | _ => take 10 (List.rev (entries_for h calls) ++
                     GetTransferHistory h conns)
     end) /\
  (forall (h : string) (calls : list Call) (conns : Connections),
     entries_for h calls <> [] ->
     (List.length (GetTransferHistory h (record_all calls conns)) <= 10)%nat) /\
  (forall (h : string) (calls : list Call) (conns : Connections),
     conns !! h = None ->
     GetTransferHistory h (record_all calls conns) =
     take 10 (List.rev (entries_for h calls))).
Proof.
  repeat split.
  - intros conns c. rewrite history_after_record.
    rewrite String.eqb_refl. reflexivity.
  - intros. apply history_after_calls.
  - intros h calls conns Hne. rewrite history_after_calls.
    destruct (entries_for h calls); [done|].
    rewrite length_take. lia.
  - intros h calls conns Hnone. rewrite history_after_calls.
    unfold GetTransferHistory at 1 2. rewrite Hnone.
    destruct (entries_for h calls); [reflexivity|].
    rewrite app_nil_r. reflexivity.
Qed.

End HistoryFacts.

(** ** The remote session: search *)

Section SearchFacts.
Import transfer spec.
Context {T : Text}.

Lemma prefix_empty (s : string) : String.prefix "" s = true.
Proof. destruct s; reflexivity. Qed.

Lemma prefix_one (a c : ascii) (s : string) :
  String.prefix (String a "") (String c s) = Ascii.eqb c a.
Proof.
  cbn. destruct (ascii_dec a c) as [->|Hne].
  - rewrite prefix_empty, Ascii.eqb_refl. reflexivity.
  - symmetry. apply Ascii.eqb_neq. congruence.
Qed.

(** Replacing a one-character string by nothing removes the
    character. *)
Lemma ReplaceAll_one (a : ascii) (s : string) :
  strings.ReplaceAll s (String a "") "" =
  filter_string (fun c => negb (Ascii.eqb c a)) s.
Proof.
  unfold strings.ReplaceAll.
  induction s as [|c s IH]; [reflexivity|].
  cbn [strings.replace_from filter_string].
  rewrite prefix_one.
  destruct (Ascii.eqb c a); cbn [negb String.length Nat.pred];
    rewrite IH; reflexivity.
Qed.

Lemma filter_string_twice (f g : ascii -> bool) (s : string) :
  filter_string g (filter_string f s) =
  filter_string (fun c => f c && g c) s.
Proof.
  induction s as [|c s IH]; [reflexivity|].
  cbn [filter_string]. destruct (f c); cbn [filter_string andb].
  - destruct (g c); rewrite IH; reflexivity.
  - apply IH.
Qed.

Lemma filter_string_ext (f g : ascii -> bool) (s : string) :
  (forall c, f c = g c) -> filter_string f s = filter_string g s.
Proof.
  intros Hfg. induction s as [|c s IH]; [reflexivity|].
  cbn [filter_string]. rewrite Hfg, IH. reflexivity.
Qed.

Lemma chars_filter_string (keep : ascii -> bool) (s : string) :
  chars (filter_string keep s) = List.filter keep (chars s).
Proof.
  unfold chars. induction s as [|c s IH]; [reflexivity|].
  cbn [filter_string list_ascii_of_string List.filter].
  destruct (keep c); cbn [list_ascii_of_string]; rewrite IH; reflexivity.
Qed.

Lemma sanitize_filters (pattern : string) :
  sanitize pattern = filter_string (fun c => negb (is_meta c)) pattern.
Proof.
  unfold sanitize. rewrite !ReplaceAll_one, !filter_string_twice.
  apply filter_string_ext. intros c. unfold is_meta, metacharacters.
  cbn [existsb]. rewrite !negb_orb, !andb_assoc, andb_true_r.
  reflexivity.
Qed.

(** The commands a call of [QuickSearch] runs: none when its session
    cannot be opened; otherwise the primary command, followed by the
    fallback command when the primary one fails and the session of the
    fallback opens. *)
Lemma QuickSearch_issued (r : Remote) (pattern startDir : string)
    (limit : Z) :
  let dir := expand_home r startDir in
  let lim := if bool_decide (limit <= 0) then 30 else limit in
  issued (QuickSearch r pattern startDir limit) =
  match session r with
  | Some _ => []
  | None =>
      primary_cmd dir (sanitize pattern) lim ::
      match snd (Output r (primary_cmd dir (sanitize pattern) lim)) with
      | None => []
      | Some _ =>
          if helper r then [fallback_cmd dir (sanitize pattern) lim] else []
      end
  end.
Proof.
  intros dir lim. unfold QuickSearch. fold lim.
  destruct (session r) as [e|]; [reflexivity|]. fold dir.
  destruct (Output r (primary_cmd dir (sanitize pattern) lim))
    as [out [e1|]]; cbn [snd]; [|reflexivity].
  destruct (helper r); [|reflexivity].
  destruct (Output r (fallback_cmd dir (sanitize pattern) lim))
    as [out2 [e2|]]; reflexivity.
Qed.

(** C3. [QuickSearch] removes every occurrence of the seven
    metacharacters from the pattern and keeps the other characters in
    their order; every search command it runs is a fixed text around the
    start directory and the limit with the cleaned pattern in the middle,
    so the pattern part of the command holds none of the seven.  And it
    does run such a command: once its session is open the primary
    command with the cleaned pattern is the first command it runs, and
    when that fails the fallback command with the cleaned pattern is the
    second and last; it runs no other command. *)
Theorem C3_pattern_sanitized (r : Remote) (pattern startDir : string)
    (limit : Z) :
  chars (sanitize pattern) =
    List.filter (fun c => negb (is_meta c)) (chars pattern) /\
  (forall c, In c metacharacters -> ~ In c (chars (sanitize pattern))) /\
  (forall cmd, In cmd (issued (QuickSearch r pattern startDir limit)) ->
     let dir := expand_home r startDir in
     let lim := if bool_decide (limit <= 0) then 30 else limit in
     exists head tail : string,
       cmd = head ++ sanitize pattern ++ tail /\
       ((head = find_head "timeout 3s " dir /\ tail = primary_tail lim) \/
        (head = find_head "" dir /\ tail = fallback_tail lim))) /\
  (session r = None ->
   let dir := expand_home r startDir in
   let lim := if bool_decide (limit <= 0) then 30 else limit in
   let primary :=
     find_head "timeout 3s " dir ++ sanitize pattern ++ primary_tail lim in
   let fallback :=
     find_head "" dir ++ sanitize pattern ++ fallback_tail lim in
   (issued (QuickSearch r pattern startDir limit) = [primary] \/
    issued (QuickSearch r pattern startDir limit) = [primary; fallback]) /\
   (snd (Output r primary) <> None -> helper r = true ->
    issued (QuickSearch r pattern startDir limit) = [primary; fallback]) /\
   (snd (Output r primary) = None ->
    issued (QuickSearch r pattern startDir limit) = [primary])) /\
  (session r <> None -> issued (QuickSearch r pattern startDir limit) = []).
Proof.
  split; [|split; [|split; [|split]]].
  - rewrite sanitize_filters. apply chars_filter_string.
  - intros c Hmeta Hin. rewrite sanitize_filters, chars_filter_string in Hin.
    apply filter_In in Hin as [_ Hkeep].
    apply negb_true_iff in Hkeep.
    assert (is_meta c = true) as Hc; [|congruence].
    unfold is_meta. apply existsb_exists. exists c.
    split; [assumption|apply Ascii.eqb_refl].
  - intros cmd Hin dir lim. unfold QuickSearch in Hin.
    fold lim in Hin. destruct (session r) as [e|]; [destruct Hin|].
    fold dir in Hin.
    assert (cmd = primary_cmd dir (sanitize pattern) lim \/
            cmd = fallback_cmd dir (sanitize pattern) lim) as [-> | ->].
    { destruct (Output r (primary_cmd dir (sanitize pattern) lim))
        as [out [e1|]]; cbn [issued] in Hin.
      - destruct (helper r).
        + destruct (Output r (fallback_cmd dir (sanitize pattern) lim))
            as [out2 [e2|]]; cbn [issued] in Hin;
            destruct Hin as [<-|[<-|[]]]; auto.
        + cbn [issued] in Hin. destruct Hin as [<-|[]]; auto.
      - destruct Hin as [<-|[]]; auto. }
    + eexists _, _. split; [reflexivity|]. left. split; reflexivity.
    + eexists _, _. split; [reflexivity|]. right. split; reflexivity.
  - intros Hs dir lim primary fallback.
    pose proof (QuickSearch_issued r pattern startDir limit) as Hissued.
    cbn zeta in Hissued. fold dir lim in Hissued. rewrite Hs in Hissued.
    change (primary_cmd dir (sanitize pattern) lim) with primary in Hissued.
    change (fallback_cmd dir (sanitize pattern) lim) with fallback in Hissued.
    rewrite Hissued.
    destruct (snd (Output r primary)) as [e1|]; [|].
    + destruct (helper r).
      * split; [right; reflexivity|]. split; [reflexivity|].
        intros H. discriminate.
      * split; [left; reflexivity|]. split; [intros _ H; discriminate|].
        intros H. discriminate.
    + split; [left; reflexivity|]. split; [intros H; contradiction|].
      reflexivity.
  - intros Hs.
    pose proof (QuickSearch_issued r pattern startDir limit) as Hissued.
    cbn zeta in Hissued. rewrite Hissued.
    destruct (session r); [reflexivity|contradiction].
Qed.

(** C9, as the code has it. When the primary and the fallback command
    both fail - these two commands, whatever else the remote side does -
    [QuickSearch] returns an empty list and no error, having run the
    two; the command of the browser then sends a search message with no
    results and no error, and the browser shows an empty result with no
    error text.  [QuickSearch] returns an error exactly when its session
    cannot be opened, and the error is that of the session. *)
Theorem C9_failed_search_is_empty_result (r : Remote)
    (pattern startDir : string) (limit : Z) :
  let dir := expand_home r startDir in
  let lim := if bool_decide (limit <= 0) then 30 else limit in
  let primary := primary_cmd dir (sanitize pattern) lim in
  let fallback := fallback_cmd dir (sanitize pattern) lim in
  (session r = None -> helper r = true ->
   snd (Output r primary) <> None -> snd (Output r fallback) <> None ->
   returned (QuickSearch r pattern startDir limit) = Ok [] /\
   issued (QuickSearch r pattern startDir limit) = [primary; fallback]) /\
  (forall e, returned (QuickSearch r pattern startDir limit) = Err e <->
             session r = Some e) /\
  (forall m : ui.remoteBrowserModel,
     pattern = ui.searchQuery m -> startDir = ui.currentDir m ->
     limit = 30 ->
     session r = None -> helper r = true ->
     snd (Output r primary) <> None -> snd (Output r fallback) <> None ->
     ui.session m <> ui.NoSession ->
     ui.runSearch_msg r m (ui.searchQuery m) =
       Some (ui.remoteBrowserSearchMsg [] (ui.searchQuery m) None) /\
     exists m', ui.Update m (ui.remoteBrowserSearchMsg [] (ui.searchQuery m) None)
                = Some (m', ui.NoCmd) /\
                ui.err m' = "" /\ ui.searchFiles m' = [] /\
                ui.loading m' = false).
Proof.
  intros dir lim primary fallback.
  assert (session r = None -> helper r = true ->
          snd (Output r primary) <> None -> snd (Output r fallback) <> None ->
          returned (QuickSearch r pattern startDir limit) = Ok [] /\
          issued (QuickSearch r pattern startDir limit) = [primary; fallback])
    as Hempty.
  { intros Hs Hh H1 H2. unfold QuickSearch. fold lim. rewrite Hs, Hh.
    fold dir. fold primary. fold fallback.
    destruct (Output r primary) as [o1 [e1|]]; [|contradiction].
    destruct (Output r fallback) as [o2 [e2|]]; [|contradiction].
    split; reflexivity. }
  split; [exact Hempty|]. split.
  - intros e. unfold QuickSearch. fold lim.
    destruct (session r) as [e0|].
    + cbn [returned]. split; intros H; injection H as <-; reflexivity.
    + fold dir. fold primary. fold fallback.
      split; [|discriminate].
      destruct (Output r primary) as [o1 [e1|]]; cbn [returned];
        [|discriminate].
      destruct (helper r); [|discriminate].
      destruct (Output r fallback) as [o2 [e2|]]; discriminate.
  - intros m Hp Hd Hl Hs Hh H1 H2 Hsession. split.
    + unfold ui.runSearch_msg. rewrite <- Hp, <- Hd, <- Hl.
      rewrite (proj1 (Hempty Hs Hh H1 H2)).
      destruct (ui.session m); [contradiction|reflexivity..].
    + unfold ui.Update. rewrite String.eqb_refl. cbn [negb].
      eexists. split; [reflexivity|]. split; [reflexivity|].
      unfold ui.sortSearchResults. cbn. split; reflexivity.
Qed.

End SearchFacts.

Section SearchWitnesses.
Import transfer spec samples.

Lemma C3_pattern_sanitized_witness :
  In "$"%char metacharacters /\
  ~ In "$"%char (chars (sanitize "a';$(reboot)|`x`")) /\
  sanitize "a';$(reboot)|`x`" = "a(reboot)x" /\
  session failing_remote = None /\
  snd (Output failing_remote
         (find_head (T:=ascii_text) "timeout 3s " "/srv" ++ "a(reboot)x" ++
          primary_tail (T:=ascii_text) 30)) <> None /\
  helper failing_remote = true /\
  issued (QuickSearch (T:=ascii_text) failing_remote "a';$(reboot)|`x`"
            "/srv" 30) =
    [find_head (T:=ascii_text) "timeout 3s " "/srv" ++ "a(reboot)x" ++
       primary_tail (T:=ascii_text) 30;
     find_head (T:=ascii_text) "" "/srv" ++ "a(reboot)x" ++
       fallback_tail (T:=ascii_text) 30].
Proof.
  assert (session failing_remote = None) as Hs by reflexivity.
  assert (snd (Output failing_remote
                 (find_head (T:=ascii_text) "timeout 3s " "/srv" ++
                  "a(reboot)x" ++ primary_tail (T:=ascii_text) 30)) <> None)
    as Hfail by discriminate.
  assert (helper failing_remote = true) as Hh by reflexivity.
  split; [|split; [|split; [|split; [|split; [|split]]]]].
  - vm_compute. tauto.
  - apply (proj1 (proj2 (C3_pattern_sanitized (T:=ascii_text) failing_remote
                           "a';$(reboot)|`x`" "/srv" 30))).
    vm_compute. tauto.
  - reflexivity.
  - exact Hs.
  - exact Hfail.
  - exact Hh.
  - exact (proj1 (proj2 (proj1 (proj2 (proj2 (proj2
             (C3_pattern_sanitized (T:=ascii_text) failing_remote
                "a';$(reboot)|`x`" "/srv" 30)))) Hs)) Hfail Hh).
Defined.

(** C9, as the specification has it, fails: on a remote side where the
    two search commands exit with an error the call returns a value, not
    an error, and the browser is left without error text. *)
Lemma C9_counterexample :
  session find_failing_remote = None /\
  helper find_failing_remote = true /\
  snd (Output find_failing_remote
         (primary_cmd (T:=ascii_text) "/home/u" "log" 30)) <> None /\
  snd (Output find_failing_remote
         (fallback_cmd (T:=ascii_text) "/home/u" "log" 30)) <> None /\
  returned (QuickSearch (T:=ascii_text) find_failing_remote "log" "/home/u" 30)
    = Ok [] /\
  (~ exists e,
       returned (QuickSearch (T:=ascii_text) find_failing_remote "log"
                   "/home/u" 30) = Err e) /\
  ui.err browser_searching <> "" /\
  exists msg m',
    ui.runSearch_msg (T:=ascii_text) find_failing_remote browser_searching
      "log" = Some msg /\
    ui.Update (T:=ascii_text) browser_searching msg = Some (m', ui.NoCmd) /\
    ui.err m' = "".
Proof.
  split; [reflexivity|]. split; [reflexivity|].
  split; [vm_compute; discriminate|]. split; [vm_compute; discriminate|].
  split; [vm_compute; reflexivity|]. split.
  { intros [e He]. vm_compute in He. discriminate. }
  split; [discriminate|].
  eexists _, _. split; [vm_compute; reflexivity|].
  split; vm_compute; reflexivity.
Qed.

Lemma C9_failed_search_is_empty_result_witness :
  session find_failing_remote = None /\
  helper find_failing_remote = true /\
  snd (Output find_failing_remote
         (primary_cmd (T:=ascii_text) "/home/u" "log" 30)) <> None /\
  snd (Output find_failing_remote
         (fallback_cmd (T:=ascii_text) "/home/u" "log" 30)) <> None /\
  snd (Output find_failing_remote "echo $HOME") = None /\
  returned (QuickSearch (T:=ascii_text) find_failing_remote "log" "/home/u" 30)
    = Ok [] /\
  issued (QuickSearch (T:=ascii_text) find_failing_remote "log" "/home/u" 30)
    = [primary_cmd (T:=ascii_text) "/home/u" "log" 30;
       fallback_cmd (T:=ascii_text) "/home/u" "log" 30].
Proof.
  assert (session find_failing_remote = None) as Hs by reflexivity.
  assert (helper find_failing_remote = true) as Hh by reflexivity.
  assert (snd (Output find_failing_remote
                 (primary_cmd (T:=ascii_text) "/home/u" "log" 30)) <> None)
    as H1 by (vm_compute; discriminate).
  assert (snd (Output find_failing_remote
                 (fallback_cmd (T:=ascii_text) "/home/u" "log" 30)) <> None)
    as H2 by (vm_compute; discriminate).
  split; [exact Hs|]. split; [exact Hh|]. split; [exact H1|].
  split; [exact H2|]. split; [vm_compute; reflexivity|].
  exact (proj1 (C9_failed_search_is_empty_result (T:=ascii_text)
                  find_failing_remote "log" "/home/u" 30) Hs Hh H1 H2).
Defined.

End SearchWitnesses.

Section HistoryWitness.
Import history samples.

Lemma C4_history_prepends_and_truncates_witness :
  entries_for "myhost" eleven <> [] /\
  (∅ : Connections) !! "myhost" = None /\
  (List.length (GetTransferHistory "myhost" (record_all eleven ∅)) <= 10)%nat /\
  List.map Timestamp (GetTransferHistory "myhost" (record_all eleven ∅)) =
    [11; 10; 9; 8; 7; 6; 5; 4; 3; 2].
Proof.
  assert (entries_for "myhost" eleven <> []) as Hne by (vm_compute; discriminate).
  assert ((∅ : Connections) !! "myhost" = None) as Hnone by apply lookup_empty.
  split; [exact Hne|]. split; [exact Hnone|]. split.
  - exact (proj1 (proj2 (proj2 C4_history_prepends_and_truncates))
             "myhost" eleven ∅ Hne).
  - rewrite (proj2 (proj2 (proj2 C4_history_prepends_and_truncates))
               "myhost" eleven ∅ Hnone).
    reflexivity.
Defined.

End HistoryWitness.

(** ** The wizard *)

Section WizardFacts.
Import transfer wizard.

(** C8, as the code has it. The request built on entering the
    Transferring state is recursive exactly when the direction is upload
    and the local path is a directory, or the direction is download and
    the download type is folder; when downloading into a local path that
    is an existing directory the local path of the request is
    [filepath.Join] of that directory and the base name of the remote
    path, which is a cleaned path: /var/log/app.log into ./downloads/
    gives downloads/app.log.  Otherwise the local path is the chosen
    one.  The Transferring state is entered with this request started. *)
Theorem C8_transfer_request (w : Local) (m : quickTransferModel) :
  let req := transfer_request w m in
  (Recursive req = true <->
     (direction m = Upload /\ is_dir w (localPath m) = true) \/
     (direction m = Download /\ downloadType m = UploadFolder)) /\
  (direction m = Download -> is_dir w (localPath m) = true ->
     LocalPath req = filepath.Join [localPath m; filepath.Base (remotePath m)]) /\
  (direction m = Upload \/ is_dir w (localPath m) = false ->
     LocalPath req = localPath m) /\
  filepath.Join ["./downloads/"; filepath.Base "/var/log/app.log"]
    = "downloads/app.log" /\
  (forall msg m' c,
     Update w m msg = (m', c) ->
     state m <> QTStateTransferring -> state m' = QTStateTransferring ->
     c = awaitTransfer (transfer_request w m') /\
     runningTransfer m' = Some (StartTransfer (Start w))).
Proof.
  cbn zeta. unfold transfer_request.
  split; [|split; [|split; [|split]]].
  - destruct (direction m), (is_dir w (localPath m)), (downloadType m);
      cbn [Recursive]; split; intros H; try reflexivity; try discriminate;
      try (left; split; reflexivity); try (right; split; reflexivity);
      destruct H as [[H1 H2]|[H1 H2]]; discriminate.
  - intros -> ->. reflexivity.
  - intros [-> | ->]; [reflexivity|]. destruct (direction m); reflexivity.
  - reflexivity.
  - intros msg m' c Hup Hold Hnew.
    destruct msg as [path sel|path sel|ok e|type key|]; cbn in Hup.
    + destruct sel; cbn in Hup; [|inversion Hup; subst; contradiction].
      destruct (direction m) eqn:Hdir; inversion Hup; subst; cbn in Hnew;
        [discriminate|].
      split; reflexivity.
    + destruct sel; cbn in Hup; [|inversion Hup; subst; contradiction].
      destruct (direction m) eqn:Hdir; inversion Hup; subst; cbn in Hnew;
        [|discriminate].
      split; reflexivity.
    + destruct e; inversion Hup; subst; discriminate.
    + exfalso. destruct type.
      * inversion Hup; subst. contradiction.
      * unfold key_in_state in Hup.
        destruct (state m) eqn:Hst; inversion Hup; subst; cbn in Hnew;
          congruence.
      * unfold key_in_state, choose_upload, choose_download,
          choose_direction, back_to_direction, move_choice in Hup.
        destruct (state m) eqn:Hst;
          repeat match type of Hup with
                 | context [if ?b then _ else _] => destruct b
                 end;
          inversion Hup; subst; cbn in Hnew; congruence.
    + inversion Hup; subst. contradiction.
Qed.

End WizardFacts.

Section WizardWitness.
Import transfer wizard samples.

(** C8, as the specification has it, fails on its own example: the local
    path of the request is not ./downloads/app.log. *)
Lemma C8_counterexample :
  direction download_app_log = Download /\
  remotePath download_app_log = "/var/log/app.log" /\
  localPath download_app_log = "./downloads/" /\
  is_dir downloads (localPath download_app_log) = true /\
  LocalPath (transfer_request downloads download_app_log)
    <> "./downloads/app.log".
Proof. repeat split. vm_compute. discriminate. Qed.

Lemma C8_transfer_request_witness :
  direction download_app_log = Download /\
  is_dir downloads (localPath download_app_log) = true /\
  LocalPath (transfer_request downloads download_app_log) = "downloads/app.log".
Proof.
  split; [reflexivity|]. split; [reflexivity|].
  rewrite (proj1 (proj2 (C8_transfer_request downloads download_app_log)));
    reflexivity.
Defined.

End WizardWitness.

(** ** The remote browser: completions and search *)

Section BrowserFacts.
Import transfer ui spec.
Context {T : Text}.

(** Case analysis on the tests and look-ups of a handler in the
    hypothesis [H]. *)
Ltac split_handler H :=
  repeat match type of H with
         | context [if ?b then _ else _] => destruct b eqn:?
         | context [match mode ?m with _ => _ end] => destruct (mode m) eqn:?
         | context [index ?l ?i] => destruct (index l i) eqn:?; cbn [mbind option_bind] in H
         | context [match session ?m with _ => _ end] => destruct (session m) eqn:?
         end.

Lemma key_while_searching_cmd m key m' c :
  key_while_searching m key = Some (m', c) -> c = NoCmd.
Proof.
  unfold key_while_searching. intros H. split_handler H; congruence.
Qed.

Lemma key_in_search_cmd m key m' c :
  key_in_search m key = Some (m', c) ->
  forall q, c <> runSearch q.
Proof.
  unfold key_in_search. intros H q. split_handler H; congruence.
Qed.

Lemma key_in_listing_cmd m key m' c :
  key_in_listing m key = Some (m', c) ->
  forall q, c <> runSearch q.
Proof.
  unfold key_in_listing. intros H q.
  split_handler H; cbn [mbind option_bind] in H; congruence.
Qed.

Lemma Update_runSearch m msg m' q :
  Update m msg = Some (m', runSearch q) ->
  msg = searchDebounceMsg q /\ q = searchQuery m /\ 3 <= slen q.
Proof.
  intros H. destruct msg as [fs d e|fs query e|query|key|]; cbn [Update] in H.
  - destruct e; discriminate.
  - destruct (negb _); [discriminate|]. destruct e; discriminate.
  - destruct (String.eqb query (searchQuery m)) eqn:Heq; cbn [andb] in H;
      [|discriminate].
    apply String.eqb_eq in Heq. subst query.
    case_bool_decide; cbn [andb] in H; [|discriminate].
    destruct (searchTriggered m); cbn [negb] in H; [discriminate|].
    inversion H; subst. cbn. repeat split; lia.
  - destruct (loading m && searchMode m).
    { apply key_while_searching_cmd in H. discriminate. }
    destruct (loading m); [discriminate|].
    destruct (searchMode m).
    + exfalso. eapply key_in_search_cmd; eauto.
    + exfalso. eapply key_in_listing_cmd; eauto.
  - discriminate.
Qed.

(** C6. [Update] returns the search command only for the debounce
    message of the current query, and only when that query has at least 3
    characters; so in a run of the event loop from any state every search
    command returned carries a query of length at least 3, and none is
    returned for a shorter one. *)
Theorem C6_search_needs_three_characters :
  (forall m msg m' q,
     Update m msg = Some (m', runSearch q) ->
     msg = searchDebounceMsg q /\ q = searchQuery m /\ 3 <= slen q) /\
  (forall msgs m m' cmds q,
     run m msgs = Some (m', cmds) -> In (runSearch q) cmds -> 3 <= slen q).
Proof.
  split; [apply Update_runSearch|].
  induction msgs as [|msg msgs IH]; intros m m' cmds q Hrun Hin.
  - inversion Hrun; subst. destruct Hin.
  - cbn [run] in Hrun.
    destruct (Update m msg) as [[m1 c]|] eqn:Hup; [|discriminate].
    cbn in Hrun.
    destruct (run m1 msgs) as [[m2 cs]|] eqn:Hrest; [|discriminate].
    cbn in Hrun. inversion Hrun; subst.
    destruct Hin as [->|Hin].
    + apply Update_runSearch in Hup. tauto.
    + eapply IH; eauto.
Qed.

(** What [Update] does with the completions.  A search completion for
    another query than the current one leaves the whole state as it is
    and returns no command.  A directory listing is applied whatever
    directory it is for and whichever browser asked for it: without an
    error it replaces the entries and the current directory, puts the
    cursor on 0 and clears the error text and the search; with an error
    it sets the error text and keeps the entries, the directory and the
    cursor. *)
Lemma completions_applied (m : remoteBrowserModel) :
  (forall fs query e,
     query <> searchQuery m ->
     Update m (remoteBrowserSearchMsg fs query e) = Some (m, NoCmd)) /\
  (forall fs dir,
     exists m', Update m (remoteBrowserLoadedMsg fs dir None) = Some (m', NoCmd) /\
       files m' = fs /\ currentDir m' = dir /\ cursor m' = 0 /\ err m' = "" /\
       searchFiles m' = [] /\ searchMode m' = false /\ loading m' = false) /\
  (forall fs dir e,
     exists m', Update m (remoteBrowserLoadedMsg fs dir (Some e)) = Some (m', NoCmd) /\
       err m' = e /\ files m' = files m /\ visibleFiles m' = visibleFiles m /\
       searchFiles m' = searchFiles m /\ currentDir m' = currentDir m /\
       cursor m' = cursor m /\ loading m' = false).
Proof.
  split; [|split].
  - intros fs query e Hne. cbn [Update].
    apply String.eqb_neq in Hne. rewrite Hne. reflexivity.
  - intros fs dir. cbn [Update]. eexists. split; [reflexivity|].
    unfold filterFiles. destruct (showHidden _); cbn; repeat split.
  - intros fs dir e. cbn [Update]. eexists. split; [reflexivity|].
    cbn. repeat split.
Qed.

End BrowserFacts.

(** ** Sorting *)

Section SortFacts.
Import sort.
Context {A : Type} (less : A -> A -> bool).

Local Abbreviation descending := (sort.descending less).

Lemma insert_left_perm (x : A) (l : list A) :
  Permutation (insert_left less x l) (x :: l).
Proof.
  induction l as [|y l IH]; cbn [insert_left]; [reflexivity|].
  destruct (less x y); [|reflexivity].
  rewrite IH. apply perm_swap.
Qed.

Lemma insert_left_descending (x : A) (l : list A) :
  descending l ->
  Forall (fun y => less x y && less y x = false) l ->
  (forall b c, In b l -> In c l ->
     less x b = false -> less b c = false -> less x c = false) ->
  descending (insert_left less x l).
Proof.
  unfold descending.
  induction l as [|y l IH]; intros Hs Hasym Htrans; cbn [insert_left].
  - repeat constructor.
  - apply StronglySorted_cons in Hs as [Hy Hs].
    apply Forall_cons in Hasym as [Hxy Hasym].
    destruct (less x y) eqn:Hlt.
    + apply StronglySorted_cons. split.
      * rewrite (insert_left_perm x l). constructor; [|exact Hy].
        cbn [andb] in Hxy. exact Hxy.
      * apply IH; [assumption..|].
        intros b c Hb Hc. apply Htrans; right; assumption.
    + apply StronglySorted_cons. split.
      * constructor; [exact Hlt|].
        rewrite Forall_forall in Hy |- *. intros c Hc.
        apply (Htrans y c); [left; reflexivity|right; apply list_elem_of_In, Hc|
                            exact Hlt|apply Hy, Hc].
      * apply StronglySorted_cons. split; assumption.
Qed.

Lemma fold_insert_perm (l acc : list A) :
  Permutation (List.fold_left (fun b x => insert_left less x b) l acc)
    (List.rev l ++ acc).
Proof.
  revert acc. induction l as [|x l IH]; intros acc; cbn [List.fold_left List.rev].
  - reflexivity.
  - rewrite IH, insert_left_perm, <- app_assoc. reflexivity.
Qed.

Lemma fold_insert_descending (l : list A) :
  forall acc : list A,
  descending acc ->
  asymmetric_on less l ->
  Forall (fun y => Forall (fun x => less x y && less y x = false) l) acc ->
  negatively_transitive_on less (acc ++ l) ->
  descending (List.fold_left (fun b x => insert_left less x b) l acc).
Proof.
  induction l as [|x l IH]; intros acc Hs Hasym Hcross Htrans;
    cbn [List.fold_left]; [exact Hs|].
  apply StronglySorted_cons in Hasym as [Hx Hasym].
  apply IH.
  - apply insert_left_descending; [exact Hs| |].
    + eapply List.Forall_impl; [|exact Hcross].
      intros y Hy. apply Forall_cons in Hy as [Hy _]. exact Hy.
    + intros b c Hb Hc. apply Htrans; apply in_or_app; cbn; auto.
  - exact Hasym.
  - rewrite (insert_left_perm x acc). constructor.
    + eapply List.Forall_impl; [|exact Hx].
      intros z Hz. cbn beta in Hz. rewrite andb_comm. exact Hz.
    + eapply List.Forall_impl; [|exact Hcross].
      intros y Hy. apply Forall_cons in Hy as [_ Hy]. exact Hy.
  - assert (forall z, In z (insert_left less x acc ++ l) ->
                       In z (acc ++ x :: l)) as Hin.
    { intros z Hz. apply in_app_or in Hz as [Hz|Hz].
      - apply (Permutation_in _ (insert_left_perm x acc)) in Hz.
        destruct Hz as [<-|Hz]; apply in_or_app; cbn; auto.
      - apply in_or_app; cbn; auto. }
    intros a b c Ha Hb Hc. apply Htrans; apply Hin; assumption.
Qed.

Lemma descending_rev (l : list A) :
  descending l -> sorted_by less (List.rev l).
Proof.
  unfold descending, sorted_by.
  induction l as [|x l IH]; intros Hs; cbn [List.rev]; [constructor|].
  apply StronglySorted_cons in Hs as [Hx Hs].
  apply StronglySorted_app. split; [|split].
  - intros a b Ha Hb. apply list_elem_of_singleton in Hb as ->.
    rewrite Forall_forall in Hx. apply Hx.
    apply list_elem_of_In, in_rev, list_elem_of_In. exact Ha.
  - apply IH, Hs.
  - repeat constructor.
Qed.

Lemma insertionSort_perm (l : list A) : Permutation (insertionSort less l) l.
Proof.
  unfold insertionSort.
  rewrite <- Permutation_rev, fold_insert_perm, app_nil_r.
  symmetry. apply Permutation_rev.
Qed.

Lemma insertionSort_sorted (l : list A) :
  asymmetric_on less l -> negatively_transitive_on less l ->
  sorted_by less (insertionSort less l).
Proof.
  intros Hasym Htrans. apply descending_rev.
  apply fold_insert_descending; [constructor|exact Hasym|constructor|exact Htrans].
Qed.

(** Any two elements of a sorted list, in their order. *)
Lemma sorted_by_lookup (l : list A) (i j : nat) (a b : A) :
  sorted_by less l -> (i < j)%nat -> l !! i = Some a -> l !! j = Some b ->
  less b a = false.
Proof.
  unfold sorted_by. revert i j.
  induction l as [|x l IH]; intros i j Hs Hij Hi Hj; [discriminate|].
  apply StronglySorted_cons in Hs as [Hx Hs].
  destruct j as [|j]; [lia|]. cbn in Hj.
  destruct i as [|i]; cbn in Hi.
  - inversion Hi; subst. rewrite Forall_forall in Hx.
    apply Hx. eapply list_elem_of_lookup_2. exact Hj.
  - apply (IH i j); [assumption|lia|assumption..].
Qed.

End SortFacts.

Section StableSort.
Import sort.
Context {A : Type} (less : A -> A -> bool).
Hypothesis less_asymmetric : forall a b, less a b = true -> less b a = false.
Hypothesis less_negatively_transitive :
  forall a b c, less a b = false -> less b c = false -> less a c = false.

Lemma less_irreflexive (a : A) : less a a = false.
Proof.
  destruct (less a a) eqn:H; [|reflexivity].
  rewrite (less_asymmetric a a H) in H. discriminate.
Qed.

Lemma equivalent_refl (a : A) : equivalent less a a = true.
Proof. unfold equivalent. rewrite less_irreflexive. reflexivity. Qed.

Lemma insert_left_keeps_order (p x : A) (l : list A) :
  List.filter (equivalent less p) (insert_left less x l) =
  List.filter (equivalent less p) (x :: l).
Proof.
  induction l as [|y l IH]; cbn [insert_left]; [reflexivity|].
  destruct (less x y) eqn:Hxy; [|reflexivity].
  cbn [List.filter] in *. rewrite IH.
  destruct (equivalent less p x) eqn:Hpx, (equivalent less p y) eqn:Hpy;
    try reflexivity.
  exfalso. unfold equivalent in Hpx, Hpy.
  apply andb_prop in Hpx as [_ Hxp]. apply andb_prop in Hpy as [Hpy _].
  apply negb_true_iff in Hxp, Hpy.
  rewrite (less_negatively_transitive x p y Hxp Hpy) in Hxy. discriminate.
Qed.

Lemma fold_insert_keeps_order (p : A) (l : list A) :
  forall acc : list A,
  List.filter (equivalent less p)
    (List.fold_left (fun b x => insert_left less x b) l acc) =
  (List.rev (List.filter (equivalent less p) l) ++
   List.filter (equivalent less p) acc)%list.
Proof.
  induction l as [|x l IH]; intros acc; cbn [List.fold_left]; [reflexivity|].
  rewrite IH, insert_left_keeps_order. cbn [List.filter].
  destruct (equivalent less p x); cbn [List.rev]; [|reflexivity].
  rewrite <- app_assoc. reflexivity.
Qed.

Lemma filter_rev_bool (f : A -> bool) (l : list A) :
  List.filter f (List.rev l) = List.rev (List.filter f l).
Proof.
  induction l as [|x l IH]; [reflexivity|].
  cbn [List.rev List.filter]. rewrite List.filter_app, IH. cbn [List.filter].
  destruct (f x); cbn [List.rev]; [reflexivity|apply app_nil_r].
Qed.

(** Insertion sort is a stable sort. *)
Lemma insertionSort_stable (l : list A) :
  stable_sort_of less l (insertionSort less l).
Proof.
  split.
  - apply insertionSort_sorted.
    + unfold asymmetric_on. induction l as [|a l IH]; constructor; [exact IH|].
      apply Forall_forall. intros b _.
      destruct (less a b) eqn:Hab; [|reflexivity].
      apply (less_asymmetric a b Hab).
    + intros a b c _ _ _. apply less_negatively_transitive.
  - intros p. unfold insertionSort.
    rewrite filter_rev_bool, fold_insert_keeps_order, app_nil_r.
    apply rev_involutive.
Qed.

(** A slice has one stable sort. *)
Lemma stable_sort_unique (l out1 out2 : list A) :
  stable_sort_of less l out1 -> stable_sort_of less l out2 -> out1 = out2.
Proof.
  intros [Hs1 Hf1] [Hs2 Hf2].
  assert (forall a, List.filter (equivalent less a) out1 =
                    List.filter (equivalent less a) out2) as Hf
    by (intros a; rewrite Hf1, Hf2; reflexivity).
  clear Hf1 Hf2 l. unfold sorted_by in *.
  revert out2 Hs2 Hf.
  induction out1 as [|x r1 IH]; intros [|y r2] Hs2 Hf.
  - reflexivity.
  - specialize (Hf y). cbn [List.filter] in Hf.
    rewrite equivalent_refl in Hf. discriminate.
  - specialize (Hf x). cbn [List.filter] in Hf.
    rewrite equivalent_refl in Hf. discriminate.
  - apply StronglySorted_cons in Hs1 as [Hx Hs1].
    apply StronglySorted_cons in Hs2 as [Hy Hs2].
    rewrite Forall_forall in Hx, Hy.
    assert (less y x = false) as Hyx.
    { pose proof (Hf y) as H. cbn [List.filter] in H.
      rewrite equivalent_refl in H.
      assert (In y (List.filter (equivalent less y) (x :: r1))) as Hin
        by (cbn [List.filter]; rewrite H; left; reflexivity).
      apply filter_In in Hin as [[<-|Hin] _]; [apply less_irreflexive|].
      apply Hx, list_elem_of_In, Hin. }
    assert (less x y = false) as Hxy.
    { pose proof (Hf x) as H. cbn [List.filter] in H.
      rewrite equivalent_refl in H.
      assert (In x (List.filter (equivalent less x) (y :: r2))) as Hin
        by (cbn [List.filter]; rewrite <- H; left; reflexivity).
      apply filter_In in Hin as [[<-|Hin] _]; [apply less_irreflexive|].
      apply Hy, list_elem_of_In, Hin. }
    assert (x = y) as <-.
    { pose proof (Hf x) as H. cbn [List.filter] in H.
      rewrite equivalent_refl in H. unfold equivalent in H at 2.
      rewrite Hxy, Hyx in H. cbn in H. congruence. }
    f_equal. apply IH; [exact Hs1|exact Hs2|].
    intros a. specialize (Hf a). cbn [List.filter] in Hf.
    destruct (equivalent less a x); congruence.
Qed.

End StableSort.

Lemma insertion_slicer_contract : sort.Slice_contract sort.insertion_slicer.
Proof.
  intros A less l. split.
  - apply insertionSort_perm.
  - apply insertionSort_sorted.
Qed.

(** ** The remote browser: ranking of search results *)

Section RankingFacts.
Import transfer ui spec.
Context {T : Text}.

Lemma prefix_refl (s : string) : String.prefix s s = true.
Proof.
  induction s as [|c s IH]; [reflexivity|].
  cbn. destruct (ascii_dec c c); [exact IH|congruence].
Qed.

Lemma exact_starts (name query : string) :
  String.eqb name query = true -> strings.HasPrefix name query = true.
Proof.
  intros H. apply String.eqb_eq in H as ->. apply prefix_refl.
Qed.

Lemma starts_contains (name query : string) :
  strings.HasPrefix name query = true -> strings.Contains name query = true.
Proof.
  unfold strings.HasPrefix. intros H.
  destruct name; cbn [strings.Contains]; rewrite H; reflexivity.
Qed.

Lemma less_result_ranked (query : string) (a b : RemoteFile) :
  less_result query a b = true <-> ranked_before query a b.
Proof.
  unfold less_result, ranked_before, rank.
  pose proof (exact_starts (ToLower (Name a)) query) as Ha1.
  pose proof (starts_contains (ToLower (Name a)) query) as Ha2.
  pose proof (exact_starts (ToLower (Name b)) query) as Hb1.
  pose proof (starts_contains (ToLower (Name b)) query) as Hb2.
  destruct (String.eqb (ToLower (Name a)) query),
           (strings.HasPrefix (ToLower (Name a)) query),
           (strings.Contains (ToLower (Name a)) query);
    try (specialize (Ha1 eq_refl)); try (specialize (Ha2 eq_refl));
    try discriminate;
  destruct (String.eqb (ToLower (Name b)) query),
           (strings.HasPrefix (ToLower (Name b)) query),
           (strings.Contains (ToLower (Name b)) query);
    try (specialize (Hb1 eq_refl)); try (specialize (Hb2 eq_refl));
    try discriminate;
  cbn [Bool.eqb negb]; rewrite ?bool_decide_eq_true;
    split; intros H; try discriminate; try lia; try (left; lia).
Qed.

Lemma less_result_not_ranked (query : string) (a b : RemoteFile) :
  less_result query a b = false <-> ~ ranked_before query a b.
Proof.
  rewrite <- less_result_ranked. destruct (less_result query a b); split;
    congruence.
Qed.

Lemma less_result_asymmetric (query : string) (l : list RemoteFile) :
  sort.asymmetric_on (less_result query) l.
Proof.
  unfold sort.asymmetric_on.
  induction l as [|a l IH]; constructor; [exact IH|].
  apply Forall_forall. intros b _.
  destruct (less_result query a b) eqn:Hab; [|reflexivity].
  cbn [andb]. apply less_result_not_ranked.
  apply less_result_ranked in Hab. unfold ranked_before in *. lia.
Qed.

Lemma less_result_negatively_transitive (query : string) (l : list RemoteFile) :
  sort.negatively_transitive_on (less_result query) l.
Proof.
  intros a b c _ _ _. rewrite !less_result_not_ranked.
  unfold ranked_before. lia.
Qed.

(** [sort.SliceStable] on the search results is the stable sort of
    them, and there is no other. *)
Lemma SliceStable_less_result (query : string) (l out : list RemoteFile) :
  sort.stable_sort_of (less_result query) l
    (sort.SliceStable (less_result query) l) /\
  (sort.stable_sort_of (less_result query) l out ->
   out = sort.SliceStable (less_result query) l).
Proof.
  assert (forall a b, less_result query a b = true ->
                      less_result query b a = false) as Hasym.
  { intros a b Hab. apply less_result_not_ranked.
    apply less_result_ranked in Hab. unfold ranked_before in *. lia. }
  assert (forall a b c, less_result query a b = false ->
                        less_result query b c = false ->
                        less_result query a c = false) as Htrans.
  { intros a b c. rewrite !less_result_not_ranked.
    unfold ranked_before. lia. }
  split.
  - apply insertionSort_stable; assumption.
  - intros Hout. eapply stable_sort_unique; [exact Hasym|exact Hout|].
    apply insertionSort_stable; assumption.
Qed.

(** C7. For a query of at least 3 characters [sortSearchResults]
    rearranges the results so that, of two results, the one placed first
    is of the same or a better class (name equal to the query, then name
    starting with it, then name containing it, then the others, all
    compared in lower case) and, within a class, has a path that is not
    longer; with a shorter query the model is left as it is.  Only the
    list of results changes. *)
Theorem C7_ranking (m : remoteBrowserModel) :
  let query := ToLower (searchQuery m) in
  let out := searchFiles (sortSearchResults m) in
  (slen (searchQuery m) < 3 -> sortSearchResults m = m) /\
  (3 <= slen (searchQuery m) ->
     Permutation out (searchFiles m) /\
     forall a b, before out a b ->
       (rank query a <= rank query b)%nat /\
       (rank query a = rank query b -> slen (Path a) <= slen (Path b))) /\
  sortSearchResults m = set_searchFiles out m.
Proof.
  cbn zeta. unfold sortSearchResults. split; [|split].
  - intros Hshort. rewrite (bool_decide_eq_true_2 (slen _ < 3)) by exact Hshort.
    rewrite orb_true_r. reflexivity.
  - intros Hlong.
    rewrite (bool_decide_eq_false_2 (slen _ < 3)) by lia.
    rewrite orb_false_r. case_bool_decide as Hempty.
    + split; [reflexivity|]. intros a b (i & j & _ & Hi & _).
      unfold len in Hempty. destruct (searchFiles m); [discriminate|].
      cbn in Hempty. lia.
    + cbn [searchFiles set_searchFiles]. unfold sort.SliceStable. split.
      * apply insertionSort_perm.
      * intros a b (i & j & Hij & Hi & Hj).
        pose proof (sorted_by_lookup _ _ i j a b
                      (insertionSort_sorted _ _
                         (less_result_asymmetric _ _)
                         (less_result_negatively_transitive _ _))
                      Hij Hi Hj) as Hless.
        apply less_result_not_ranked in Hless.
        unfold ranked_before in Hless. lia.
  - destruct (_ || _); [destruct m|]; reflexivity.
Qed.

End RankingFacts.

(** ** The remote session: directory listing *)

Section StringOrder.

Lemma ascii_compare_refl (a : ascii) : Ascii.compare a a = Eq.
Proof. unfold Ascii.compare. apply N.compare_refl. Qed.

Lemma ascii_compare_lt_trans (a b c : ascii) :
  Ascii.compare a b = Lt -> Ascii.compare b c = Lt -> Ascii.compare a c = Lt.
Proof.
  unfold Ascii.compare. rewrite !N.compare_lt_iff. lia.
Qed.

Lemma string_compare_lt_trans (a : string) :
  forall b c : string,
  String.compare a b = Lt -> String.compare b c = Lt -> String.compare a c = Lt.
Proof.
  induction a as [|x a IH]; intros [|y b] [|z c]; cbn [String.compare];
    try congruence.
  destruct (Ascii.compare x y) eqn:Hxy, (Ascii.compare y z) eqn:Hyz;
    try congruence; intros Hab Hbc.
  - apply Ascii.compare_eq_iff in Hxy, Hyz. subst.
    rewrite ascii_compare_refl. eapply IH; eassumption.
  - apply Ascii.compare_eq_iff in Hxy. subst. rewrite Hyz. reflexivity.
  - apply Ascii.compare_eq_iff in Hyz. subst. rewrite Hxy. reflexivity.
  - rewrite (ascii_compare_lt_trans x y z); auto.
Qed.

Lemma ltb_asymmetric (a b : string) : String.ltb a b && String.ltb b a = false.
Proof.
  unfold String.ltb. rewrite (String.compare_antisym a b).
  destruct (String.compare b a); reflexivity.
Qed.

Lemma ltb_negatively_transitive (a b c : string) :
  String.ltb a b = false -> String.ltb b c = false -> String.ltb a c = false.
Proof.
  unfold String.ltb. intros Hab Hbc.
  destruct (String.compare a c) eqn:Hac; try reflexivity. exfalso.
  destruct (String.compare a b) eqn:Hab'; try discriminate.
  - apply String.compare_eq_iff in Hab'. subst. rewrite Hac in Hbc.
    discriminate.
  - assert (String.compare b a = Lt) as Hba.
    { rewrite String.compare_antisym, Hab'. reflexivity. }
    rewrite (string_compare_lt_trans b a c Hba Hac) in Hbc. discriminate.
Qed.

Lemma ltb_false_leb (a b : string) :
  String.ltb b a = false -> String.leb a b = true.
Proof.
  unfold String.ltb, String.leb. rewrite (String.compare_antisym a b).
  destruct (String.compare b a); cbn; congruence.
Qed.

End StringOrder.

Section ListingFacts.
Import transfer spec.
Context {T : Text}.

Lemma parse_ls_line_name (r : Remote) (path line : string) (f : RemoteFile) :
  parse_ls_line r path line = Some f -> Name f <> "..".
Proof.
  unfold parse_ls_line. intros H.
  repeat match type of H with
         | context [if ?b then _ else _] => destruct b eqn:?
         end; try discriminate;
    inversion H; subst; cbn [Name];
    match goal with
    | Hn : (_ || String.eqb ?n "..") = false |- _ =>
        apply orb_false_iff in Hn as [_ Hn]; apply String.eqb_neq in Hn;
        exact Hn
    end.
Qed.

Lemma parsed_names (r : Remote) (path : string) (lines : list string) :
  Forall (fun f => Name f <> "..") (omap (parse_ls_line r path) lines).
Proof.
  induction lines as [|line lines IH]; cbn [omap list_omap]; [constructor|].
  destruct (parse_ls_line r path line) as [f|] eqn:Hf; [|exact IH].
  constructor; [eapply parse_ls_line_name; eassumption|exact IH].
Qed.

Lemma less_entry_parent (a b : RemoteFile) :
  Name b <> ".." -> less_entry a b && less_entry b a = false.
Proof.
  intros Hb. apply String.eqb_neq in Hb. unfold less_entry. rewrite Hb.
  destruct (String.eqb (Name a) ".."); [reflexivity|].
  destruct (IsDir a), (IsDir b); cbn [Bool.eqb negb andb];
    try reflexivity; apply ltb_asymmetric.
Qed.

Lemma less_entry_asymmetric (pre : list RemoteFile) (parsed : list RemoteFile) :
  (List.length pre <= 1)%nat ->
  Forall (fun f => Name f <> "..") parsed ->
  sort.asymmetric_on less_entry (pre ++ parsed).
Proof.
  intros Hpre Hparsed. unfold sort.asymmetric_on.
  assert (StronglySorted
            (fun a b => less_entry a b && less_entry b a = false) parsed) as Hp.
  { induction Hparsed as [|f parsed Hf Hrest IH]; constructor; [exact IH|].
    eapply List.Forall_impl; [|exact Hrest].
    intros b Hb. apply less_entry_parent, Hb. }
  destruct pre as [|a [|? ?]]; cbn in Hpre; [exact Hp| |lia].
  constructor; [exact Hp|].
  eapply List.Forall_impl; [|exact Hparsed].
  intros b Hb. apply less_entry_parent, Hb.
Qed.

Lemma less_entry_negatively_transitive (l : list RemoteFile) :
  sort.negatively_transitive_on less_entry l.
Proof.
  intros a b c _ _ _. unfold less_entry.
  destruct (String.eqb (Name a) ".."); [discriminate|].
  destruct (String.eqb (Name b) ".."); [discriminate|].
  destruct (String.eqb (Name c) ".."); [reflexivity|].
  destruct (IsDir a), (IsDir b), (IsDir c); cbn [Bool.eqb negb];
    try congruence; apply ltb_negatively_transitive.
Qed.

(** In a sorted listing no entry of an earlier part follows one of a
    later part. *)
Lemma less_entry_parts (a b : RemoteFile) :
  less_entry b a = false -> (part a <= part b)%nat.
Proof.
  unfold less_entry, part.
  destruct (String.eqb (Name b) ".."); [discriminate|].
  destruct (String.eqb (Name a) ".."); [lia|].
  destruct (IsDir a), (IsDir b); cbn [Bool.eqb negb]; intros H;
    try lia; discriminate.
Qed.

Lemma filter_none {A} (f : A -> bool) (l : list A) :
  Forall (fun a => f a = false) l -> List.filter f l = [].
Proof.
  induction 1 as [|a l Ha _ IH]; cbn [List.filter]; [reflexivity|].
  rewrite Ha. exact IH.
Qed.

Lemma sorted_in_parts (l : list RemoteFile) :
  sort.sorted_by less_entry l ->
  l = (List.filter (in_part 0) l ++ List.filter (in_part 1) l ++
       List.filter (in_part 2) l)%list.
Proof.
  unfold sort.sorted_by. induction 1 as [|a l Hs IH Ha]; [reflexivity|].
  assert (Forall (fun b => (part a <= part b)%nat) l) as Hparts.
  { eapply List.Forall_impl; [|exact Ha]. intros b. apply less_entry_parts. }
  cbn [List.filter].
  change (in_part 0 a) with (Nat.eqb (part a) 0).
  change (in_part 1 a) with (Nat.eqb (part a) 1).
  change (in_part 2 a) with (Nat.eqb (part a) 2).
  assert (part a = 0 \/ part a = 1 \/ part a = 2)%nat as [H|[H|H]]
    by (unfold part; destruct (String.eqb _ _), (IsDir a); auto);
    rewrite H in *; cbn [Nat.eqb].
  - cbn [app]. f_equal. exact IH.
  - rewrite (filter_none (in_part 0) l).
    + cbn [app]. f_equal. rewrite IH at 1.
      rewrite (filter_none (in_part 0) l); [reflexivity|].
      eapply List.Forall_impl; [|exact Hparts]. intros b Hb. cbn beta in Hb.
      unfold in_part. apply Nat.eqb_neq. lia.
    + eapply List.Forall_impl; [|exact Hparts]. intros b Hb. cbn beta in Hb.
      unfold in_part. apply Nat.eqb_neq. lia.
  - assert (List.filter (in_part 0) l = []) as H0.
    { apply filter_none. eapply List.Forall_impl; [|exact Hparts].
      intros b Hb. cbn beta in Hb.
      unfold in_part. apply Nat.eqb_neq. lia. }
    assert (List.filter (in_part 1) l = []) as H1.
    { apply filter_none. eapply List.Forall_impl; [|exact Hparts].
      intros b Hb. cbn beta in Hb.
      unfold in_part. apply Nat.eqb_neq. lia. }
    rewrite H0, H1 in *. cbn [app] in *. f_equal. exact IH.
Qed.

Lemma sorted_part_by_name (n : nat) (l : list RemoteFile) :
  (0 < n)%nat ->
  sort.sorted_by less_entry l ->
  StronglySorted name_le (List.filter (in_part n) l).
Proof.
  intros Hn. unfold sort.sorted_by.
  induction 1 as [|a l Hs IH Ha]; cbn [List.filter]; [constructor|].
  destruct (in_part n a) eqn:Hpa; [|exact IH].
  constructor; [exact IH|].
  apply Forall_forall. intros b Hb.
  apply list_elem_of_In, filter_In in Hb as [Hb Hpb].
  rewrite Forall_forall in Ha. specialize (Ha b (proj2 (list_elem_of_In _ _) Hb)).
  unfold in_part in Hpa, Hpb. apply Nat.eqb_eq in Hpa, Hpb.
  unfold name_le. apply ltb_false_leb.
  unfold less_entry, part in *.
  destruct (String.eqb (Name b) ".."); [lia|].
  destruct (String.eqb (Name a) ".."); [lia|].
  destruct (IsDir a), (IsDir b); cbn [Bool.eqb negb] in Ha; try lia;
    exact Ha.
Qed.

Lemma part_of_filter (n : nat) (l : list RemoteFile) :
  Forall (fun f => part f = n) (List.filter (in_part n) l).
Proof.
  apply Forall_forall. intros f Hf.
  apply list_elem_of_In, filter_In in Hf as [_ Hf].
  apply Nat.eqb_eq, Hf.
Qed.

Lemma part_directory (f : RemoteFile) :
  part f = 1%nat -> IsDir f = true /\ Name f <> "..".
Proof.
  unfold part. destruct (String.eqb_spec (Name f) ".."); [discriminate|].
  destruct (IsDir f); [auto|discriminate].
Qed.

Lemma part_file (f : RemoteFile) :
  part f = 2%nat -> IsDir f = false /\ Name f <> "..".
Proof.
  unfold part. destruct (String.eqb_spec (Name f) ".."); [discriminate|].
  destruct (IsDir f); [discriminate|auto].
Qed.

Lemma parents_of_listing (r : Remote) (path output : string) :
  List.filter (in_part 0) (listing r path output) =
  if String.eqb path "/" then [] else [parent_entry path].
Proof.
  unfold listing. rewrite List.filter_app.
  rewrite (filter_none (in_part 0) (omap _ _)).
  - rewrite app_nil_r. destruct (String.eqb path "/"); reflexivity.
  - eapply List.Forall_impl; [|apply parsed_names].
    intros f Hf. unfold in_part, part.
    apply String.eqb_neq in Hf. rewrite Hf. destruct (IsDir f); reflexivity.
Qed.

End ListingFacts.

Section ListingOrder.
Import transfer spec.
Context {T : Text}.

Lemma filter_Permutation_bool {A} (f : A -> bool) (l l' : list A) :
  Permutation l l' -> Permutation (List.filter f l) (List.filter f l').
Proof.
  induction 1 as [|a l l' _ IH|a b l|l l' l'' _ IH1 _ IH2];
    cbn [List.filter].
  - constructor.
  - destruct (f a); [constructor|]; exact IH.
  - destruct (f a), (f b); try reflexivity. apply perm_swap.
  - etransitivity; eassumption.
Qed.

(** C5. Whatever implementation of [sort.Slice] keeps its contract, the
    list [ListDirectory] returns is the parent entry, when there is one,
    followed by the directories in case-insensitive name order, followed
    by the files in case-insensitive name order; and an entry named [..]
    is in the list exactly when the listed path, after the expansion of
    the home directory, is not [/]. *)
Theorem C5_listing_order (S : sort.Slicer) (r : Remote) (path : string)
    (out : list RemoteFile) :
  sort.Slice_contract S ->
  ListDirectory r path = Ok out ->
  let listed := expand_home r path in
  exists dirs fs : list RemoteFile,
    out = ((if String.eqb listed "/" then [] else [parent_entry listed]) ++
           dirs ++ fs)%list /\
    Forall (fun f => IsDir f = true /\ Name f <> "..") dirs /\
    Forall (fun f => IsDir f = false /\ Name f <> "..") fs /\
    StronglySorted name_le dirs /\
    StronglySorted name_le fs /\
    ((exists f, In f out /\ Name f = "..") <-> listed <> "/").
Proof.
  intros HS Hlist listed. unfold ListDirectory in Hlist.
  destruct (session r) as [e|]; [discriminate|]. fold listed in Hlist.
  destruct (Output r _) as [output [e|]]; [discriminate|].
  injection Hlist as Hout.
  set (l := listing r listed output) in *.
  destruct (HS _ less_entry l) as [Hperm Hsorted].
  assert (sort.sorted_by less_entry (sort.Slice _ less_entry l)) as Hs.
  { apply Hsorted; [|apply less_entry_negatively_transitive].
    apply less_entry_asymmetric; [|apply parsed_names].
    destruct (String.eqb listed "/"); cbn; lia. }
  rewrite Hout in Hs, Hperm.
  assert (List.filter (in_part 0) out =
          if String.eqb listed "/" then [] else [parent_entry listed]) as Hparent.
  { pose proof (filter_Permutation_bool (in_part 0) _ _ Hperm) as Hp.
    unfold l in Hp. rewrite parents_of_listing in Hp.
    destruct (String.eqb listed "/").
    - apply Permutation_nil. symmetry. exact Hp.
    - apply Permutation_length_1_inv. symmetry. exact Hp. }
  exists (List.filter (in_part 1) out), (List.filter (in_part 2) out).
  assert (Forall (fun f => IsDir f = true /\ Name f <> "..")
            (List.filter (in_part 1) out)) as Hdirs.
  { eapply List.Forall_impl; [|apply part_of_filter].
    intros f. apply part_directory. }
  assert (Forall (fun f => IsDir f = false /\ Name f <> "..")
            (List.filter (in_part 2) out)) as Hfiles.
  { eapply List.Forall_impl; [|apply part_of_filter].
    intros f. apply part_file. }
  split; [|split; [|split; [|split; [|split]]]].
  - rewrite <- Hparent. apply sorted_in_parts, Hs.
  - exact Hdirs.
  - exact Hfiles.
  - apply sorted_part_by_name; [lia|exact Hs].
  - apply sorted_part_by_name; [lia|exact Hs].
  - rewrite (sorted_in_parts out Hs), Hparent. split.
    + intros (f & Hin & Hname) Hroot.
      apply String.eqb_eq in Hroot. rewrite Hroot in Hin. cbn [app] in Hin.
      apply in_app_or in Hin as [Hin|Hin].
      * rewrite Forall_forall in Hdirs.
        apply (Hdirs f); [apply list_elem_of_In, Hin|exact Hname].
      * rewrite Forall_forall in Hfiles.
        apply (Hfiles f); [apply list_elem_of_In, Hin|exact Hname].
    + intros Hroot. apply String.eqb_neq in Hroot. rewrite Hroot.
      exists (parent_entry listed). split; [left; reflexivity|reflexivity].
Qed.

End ListingOrder.

Section ListingWitness.
Import transfer spec samples.

Lemma C5_listing_order_witness :
  sort.Slice_contract sort.insertion_slicer /\
  ListDirectory (T:=ascii_text) (S:=sort.insertion_slicer) srv_remote "/srv"
    = Ok srv_entries /\
  exists dirs fs : list RemoteFile,
    srv_entries = ([parent_entry "/srv"] ++ dirs ++ fs)%list /\
    Forall (fun f => IsDir f = true /\ Name f <> "..") dirs /\
    Forall (fun f => IsDir f = false /\ Name f <> "..") fs /\
    StronglySorted (name_le (T:=ascii_text)) dirs /\
    StronglySorted (name_le (T:=ascii_text)) fs /\
    ((exists f, In f srv_entries /\ Name f = "..") <-> "/srv" <> "/").
Proof.
  assert (ListDirectory (T:=ascii_text) (S:=sort.insertion_slicer)
            srv_remote "/srv" = Ok srv_entries) as Hrun
    by (vm_compute; reflexivity).
  split; [exact insertion_slicer_contract|]. split; [exact Hrun|].
  exact (C5_listing_order (T:=ascii_text) sort.insertion_slicer srv_remote
           "/srv" srv_entries insertion_slicer_contract Hrun).
Defined.

(** C5, as the specification has it, fails: the browser opened on the
    start path /. asks for the listing of /. as it is; that path is the
    root, the listing is that of the root, and it begins with an entry
    [..], whose path is the root.  The same test lets // and /home/..
    have a parent entry, to / and to /home. *)
Lemma C5_counterexample :
  filepath.Clean "/." = "/" /\
  ui.Init (ui.NewRemoteBrowser "myhost" "/." "" ui.BrowseDirectories 80 24)
    = ui.loadDirectory "/." /\
  ListDirectory (T:=ascii_text) (S:=sort.insertion_slicer) root_remote "/"
    = Ok root_entries /\
  ListDirectory (T:=ascii_text) (S:=sort.insertion_slicer) root_remote "/."
    = Ok root_entries_with_parent /\
  snd (ui.loadDirectory_run (T:=ascii_text) (S:=sort.insertion_slicer) None
         root_remote
         (ui.NewRemoteBrowser "myhost" "/." "" ui.BrowseDirectories 80 24)
         "/.")
    = Some (ui.remoteBrowserLoadedMsg root_entries_with_parent "/." None) /\
  (exists f, In f root_entries_with_parent /\ Name f = ".." /\ Path f = "/") /\
  ~ ((exists f, In f root_entries_with_parent /\ Name f = "..") <->
     filepath.Clean "/." <> "/") /\
  (filepath.Clean "//" = "/" /\ "//" <> "/" /\
   Path (parent_entry "//") = "/") /\
  (filepath.Clean "/home/.." = "/" /\ "/home/.." <> "/" /\
   Path (parent_entry "/home/..") = "/home").
Proof.
  split; [vm_compute; reflexivity|]. split; [reflexivity|].
  split; [vm_compute; reflexivity|]. split; [vm_compute; reflexivity|].
  split; [vm_compute; reflexivity|]. split; [|split; [|split]].
  - eexists. split; [left; reflexivity|]. split; reflexivity.
  - intros [Hto _]. apply Hto; [|vm_compute; reflexivity].
    eexists. split; [left; reflexivity|reflexivity].
  - split; [vm_compute; reflexivity|]. split; [discriminate|].
    vm_compute. reflexivity.
  - split; [vm_compute; reflexivity|]. split; [discriminate|].
    vm_compute. reflexivity.
Qed.

End ListingWitness.

(** ** The transfer engine *)

Section EngineFacts.
Import transfer spec.











(** [Cancel] is its two steps run one after the other. *)
Lemma Cancel_steps (rt : RunningTransfer) :
  killing rt = false ->
  exec rt (match cmd rt with
           | NoProcess => [CancelFlag]
           | _ => [CancelFlag; CancelKill]
           end) = Some (Cancel rt).
Proof.
  destruct rt as [p k w d dl kg]. cbn. intros ->.
  destruct p; reflexivity.
Qed.









End EngineFacts.

(** ** The remote browser: runs *)

Section BrowserRuns.
Import transfer ui spec samples.

Lemma C6_search_needs_three_characters_witness :
  exists m cmds,
    run (T:=ascii_text) browser0
      [remoteBrowserLoadedMsg home_files "/home/u" None;
       KeyMsg "/"; KeyMsg "l"; KeyMsg "o"; searchDebounceMsg "lo";
       KeyMsg "g"; searchDebounceMsg "log"] = Some (m, cmds) /\
    cmds = [NoCmd; NoCmd; NoCmd; NoCmd; NoCmd; scheduleSearch "log";
            runSearch "log"] /\
    3 <= slen "log".
Proof.
  eexists _, _. split; [vm_compute; reflexivity|]. split; [reflexivity|].
  eapply (proj2 (C6_search_needs_three_characters (T:=ascii_text))
            [remoteBrowserLoadedMsg home_files "/home/u" None;
             KeyMsg "/"; KeyMsg "l"; KeyMsg "o"; searchDebounceMsg "lo";
             KeyMsg "g"; searchDebounceMsg "log"] browser0).
  - vm_compute. reflexivity.
  - cbn. tauto.
Defined.

Lemma C7_ranking_witness :
  let m := set_searchFiles log_results (set_searchQuery "Log" browser_home) in
  3 <= slen (searchQuery m) /\
  List.map Name (searchFiles (sortSearchResults (T:=ascii_text) m))
    = ["log"; "logo.png"; "logs"; "app.log"] /\
  Permutation (searchFiles (sortSearchResults (T:=ascii_text) m)) (searchFiles m).
Proof.
  cbn zeta. split; [vm_compute; discriminate|]. split; [vm_compute; reflexivity|].
  apply (proj1 (proj2 (C7_ranking (T:=ascii_text)
           (set_searchFiles log_results (set_searchQuery "Log" browser_home))))).
  vm_compute. discriminate.
Defined.

(** C10 fails on the code. After a directory among the search results is
    opened with the cursor on it (the tenth message of the run, answered
    by the command that lists the directory) and the listing of that
    directory fails, as it does when the connection is lost, the browser
    is back in normal mode with the cursor of the search: here 2, on a
    list of 2 visible files, and the next Enter indexes that list out of
    its bounds.  And after a backspace that brings the query under 3
    characters the results are gone and the cursor stays where it
    was. *)
Theorem C10_cursor_out_of_bounds :
  (exists m cmds,
     run (T:=ascii_text) browser0 search_then_failed_load = Some (m, cmds) /\
     nth_error cmds 9 = Some (loadDirectory "/home/u/srv/var/logs") /\
     snd (loadDirectory_run (T:=ascii_text) (S:=sort.insertion_slicer) None
            lost_remote m "/home/u/srv/var/logs") =
       Some (remoteBrowserLoadedMsg [] ""
               (Some "failed to create session: EOF")) /\
     searchMode m = false /\ loading m = false /\
     cursor m = 2 /\ len (displayed m) = 2 /\
     ~ cursor_in_bounds m /\
     Update (T:=ascii_text) m (KeyMsg "enter") = None) /\
  (exists m cmds,
     run (T:=ascii_text) browser0 search_then_backspace = Some (m, cmds) /\
     searchMode m = true /\ displayed m = [] /\ cursor m = 1 /\
     ~ cursor_in_bounds m).
Proof.
  split.
  - eexists _, _. split; [vm_compute; reflexivity|].
    repeat (split; [reflexivity|]). split; [|reflexivity].
    intros (_ & Hlt & _). cbn in Hlt.
    specialize (Hlt ltac:(discriminate)). vm_compute in Hlt. discriminate.
  - eexists _, _. split; [vm_compute; reflexivity|].
    repeat (split; [reflexivity|]).
    intros (_ & _ & Hzero). specialize (Hzero eq_refl). discriminate.
Qed.

End BrowserRuns.

(** ** The remote browser: what the cursor keeps *)

Section CursorFacts.
Import transfer ui spec.
Context {T : Text}.

Ltac split_handler H :=
  repeat match type of H with
         | context [if ?b then _ else _] => destruct b eqn:?
         | context [match mode ?m with _ => _ end] => destruct (mode m) eqn:?
         | context [index ?l ?i] =>
             destruct (index l i) eqn:?; cbn [mbind option_bind] in H
         | context [match session ?m with _ => _ end] =>
             destruct (session m) eqn:?
         end;
  cbn [mbind option_bind] in H.

Lemma clamp_cursor_nonneg (n : Z) (m : remoteBrowserModel) :
  0 <= cursor m -> 0 <= cursor (clamp_cursor n m).
Proof.
  unfold clamp_cursor. intros H.
  repeat case_bool_decide; cbn in *; lia.
Qed.

(** The cursor never goes below 0. *)
Lemma Update_cursor_nonneg (m m' : remoteBrowserModel) (msg : Msg) (c : Cmd) :
  0 <= cursor m -> Update m msg = Some (m', c) -> 0 <= cursor m'.
Proof.
  intros Hc H. destruct msg as [fs d e|fs query e|query|key|]; cbn [Update] in H.
  - destruct e; injection H as <- <-; [exact Hc|].
    unfold filterFiles. destruct (showHidden _); cbn; lia.
  - destruct (negb _); [injection H as <- <-; exact Hc|].
    destruct e; injection H as <- <-; [exact Hc|]. cbn. lia.
  - destruct (_ && _); injection H as <- <-; exact Hc.
  - destruct (loading m && searchMode m).
    { unfold key_while_searching, cursor_up, cursor_down in H.
      split_handler H; (discriminate H || injection H as <- <-); cbn;
        repeat case_bool_decide; cbn; lia. }
    destruct (loading m); [injection H as <- <-; exact Hc|].
    destruct (searchMode m).
    + unfold key_in_search, cursor_up, cursor_down, close_session in H.
      split_handler H; (discriminate H || injection H as <- <-); cbn;
        try apply clamp_cursor_nonneg; cbn;
        repeat case_bool_decide; try lia.
      unfold filterSearchResults. case_bool_decide; cbn; [lia|].
      apply clamp_cursor_nonneg. cbn. lia.
    + unfold key_in_listing, cursor_up, cursor_down, close_session in H.
      split_handler H; (discriminate H || injection H as <- <-); cbn;
        try apply clamp_cursor_nonneg; unfold filterFiles; cbn;
        repeat case_bool_decide; cbn; try lia.
      all: unfold len in *; try lia.
      all: destruct (negb _); cbn; lia.
  - injection H as <- <-. exact Hc.
Qed.

End CursorFacts.

(** ** The application: a listing that outlives its browser *)

Section AppRuns.
Import transfer ui spec samples.

(** C1. The code does not keep what the claim says of listings.  The
    application hands a listing to whichever browser is open when the
    listing arrives, and [Update] applies it without a test, where for a
    search it tests the query.  In the run here every message is a key
    or is sent by a command returned before.  The first browser shows
    /home/u/docs; the user chooses a file and the key r, typed before
    the choice has come back to the application, asks the browser for
    that directory again.  The choice comes back, the user leaves the
    wizard, starts a quick download again and its browser, new, asks for
    the home directory and waits.  Then the listing of /home/u/docs
    that the first browser asked for arrives: the new browser, which
    asked for the home directory only and has no answer yet, shows the
    entries of /home/u/docs as its current directory and stops
    waiting. *)
Theorem C1_stale_listing_applied :
  exists a1 b1 a2 b2 a3 b3 picker,
    (* the listings in the run are what the remote side gives *)
    snd (loadDirectory_run (T:=ascii_text) (S:=sort.insertion_slicer) None
           u_remote browser0 "~")
      = Some (ui.remoteBrowserLoadedMsg u_home_entries "/home/u" None) /\
    (* the first browser, asked for /home/u/docs again after the choice *)
    driven (T:=ascii_text) downloads true app0 [] refresh_after_choice
      = Some (a1,
              [app.browserCmd
                 (ui.remoteBrowserResultMsg "/home/u/docs/report.pdf" true);
               app.browserCmd (ui.loadDirectory "/home/u/docs")]) /\
    app.remoteBrowserForm a1 = Some b1 /\
    currentDir b1 = "/home/u/docs" /\
    snd (loadDirectory_run (T:=ascii_text) (S:=sort.insertion_slicer) None
           u_remote b1 "/home/u/docs")
      = Some (ui.remoteBrowserLoadedMsg u_docs_entries "/home/u/docs" None) /\
    (* the new browser, waiting for the home directory *)
    driven (T:=ascii_text) downloads true app0 []
      (refresh_after_choice ++ open_again)
      = Some (a2, [app.browserCmd (ui.loadDirectory "/home/u/docs"); picker;
                   app.browserCmd (ui.loadDirectory "~")]) /\
    app.viewMode a2 = app.ViewRemoteBrowser /\
    app.remoteBrowserForm a2 = Some b2 /\
    b2 = NewRemoteBrowser "myhost" "~" "" BrowseFiles 80 24 /\
    loading b2 = true /\ visibleFiles b2 = [] /\
    Init b2 = ui.loadDirectory "~" /\
    (* the listing of the first browser arrives and is applied *)
    app.Update (T:=ascii_text) downloads true a2 late_listing
      = Some (a3, app.browserCmd ui.NoCmd) /\
    driven (T:=ascii_text) downloads true app0 []
      (refresh_after_choice ++ open_again ++ [late_listing])
      = Some (a3, [picker; app.browserCmd (ui.loadDirectory "~")]) /\
    app.remoteBrowserForm a3 = Some b3 /\
    visible b3 <> visible b2 /\
    currentDir b3 = "/home/u/docs" /\
    visibleFiles b3 = u_docs_entries /\
    loading b3 = false.
Proof.
  eexists _, _, _, _, _, _, _.
  split; [vm_compute; reflexivity|].
  split; [vm_compute; reflexivity|].
  split; [reflexivity|]. split; [reflexivity|].
  split; [vm_compute; reflexivity|].
  split; [vm_compute; reflexivity|].
  split; [reflexivity|]. split; [reflexivity|]. split; [reflexivity|].
  split; [reflexivity|]. split; [reflexivity|]. split; [reflexivity|].
  split; [vm_compute; reflexivity|].
  split; [vm_compute; reflexivity|].
  split; [reflexivity|].
  split; [vm_compute; discriminate|].
  split; [reflexivity|]. split; reflexivity.
Qed.

End AppRuns.
